(** * Cross-source validator (src/validators/cross-validator.ts)

    A shallow embedding of [CrossValidator] and the properties its
    specification states about [validate].

    Modelling choices.
    - A JavaScript [number] is a finite binary64 value, held as the rational
      it denotes, or [NaN].  Addition, multiplication and division round
      their exact result to the nearest binary64 value, ties to even
      ([round64], 53 bits of significand); [Math.max], [Math.min] and the
      comparisons are exact.  Overflow to an infinity, underflow to a
      subnormal and the sign of zero are outside the model.  The only
      division whose divisor is not a literal is guarded by
      [maxActivity === 0].
    - A counter or a threshold is read from a field that may be missing or
      hold [undefined]: the read yields a [jsval], either [JUndefined] or a
      number, and arithmetic and comparison convert it with [ToNumber].
    - Collection timestamps, clock readings and set sizes are integers; their
      differences are taken in the integers, which is what binary64 computes
      below 2^53.
    - The two argument objects and the clock behind [Date.now()] live in a
      [Heap]; [validate] is a computation in a state monad over it, so that
      what it reads and what it leaves unchanged can be stated.
    - User identifiers are strings; [new Set([...])] is a [gset string]. *)

From Stdlib Require Import ZArith QArith Qminmax Qabs Qround Qpower Lqa Lia.
From stdpp Require Import gmap strings list.

Local Open Scope Z_scope.

(** ** JavaScript numbers *)

Module Number.

(** *** Rounding to binary64 *)

Definition pow2 (e : Z) : Q := Qpower 2 e.

(** The integer part of the base-2 logarithm of a positive rational. *)
Definition floor_log2 (x : Q) : Z :=
  let k := Z.log2 (Qnum x) - Z.log2 (Zpos (Qden x)) in
  if Qle_bool (pow2 k) x then k else k - 1.

(** The nearest integer, a tie going to the even one. *)
Definition rne (y : Q) : Z :=
  let f := Qfloor y in
  match (y - inject_Z f ?= 1 # 2)%Q with
  | Lt => f
  | Gt => f + 1
  | Eq => if Z.even f then f else f + 1
  end.

(** A positive rational rounded to 53 significant bits: with [e] such that
    [2^52 <= x / 2^e < 2^53], the significand is [x / 2^e] rounded to an
    integer. *)
Definition round_pos (x : Q) : Q :=
  let e := floor_log2 x - 52 in
  (inject_Z (rne (x / pow2 e)) * pow2 e)%Q.

Definition round64 (x : Q) : Q :=
  match Qnum x with
  | Z0 => 0%Q
  | Zpos _ => round_pos x
  | Zneg _ => (- round_pos (- x))%Q
  end.

(** The rationals that are binary64 values. *)
Definition is_double (x : Q) : Prop := (round64 x == x)%Q.

(** The largest binary64 value below 1. *)
Definition pred_one : Q := (1 - pow2 (- 53))%Q.

(** The binary64 operations on finite values. *)
Definition fadd (x y : Q) : Q := round64 (x + y).
Definition fmul (x y : Q) : Q := round64 (x * y).
Definition fdiv (x y : Q) : Q := round64 (x / y).

(** *** Values *)

Inductive number : Type :=
| Num (q : Q)
| NaN.

(** What reading a property yields: the property may be absent. *)
Inductive jsval : Type :=
| JUndefined
| JNumber (x : number).

(** [ToNumber(undefined)] is [NaN]. *)
Definition ToNumber (v : jsval) : number :=
  match v with
  | JUndefined => NaN
  | JNumber x => x
  end.

Definition of_Z (z : Z) : number := Num (inject_Z z).

(** A decimal literal of the source denotes the nearest binary64 value. *)
Definition literal (q : Q) : number := Num (round64 q).

Definition add (a b : number) : number :=
  match a, b with
  | Num x, Num y => Num (fadd x y)
  | _, _ => NaN
  end.

(** [a + b] on property reads. *)
Definition js_add (a b : jsval) : number := add (ToNumber a) (ToNumber b).

Definition mul (a b : number) : number :=
  match a, b with
  | Num x, Num y => Num (fmul x y)
  | _, _ => NaN
  end.

(** [a / b].  A zero divisor gives [NaN]; JavaScript gives an infinity when
    the dividend is not zero, which no division of the validator reaches
    (see [calculateActivityCorrelation_divisor]). *)
Definition div (a b : number) : number :=
  match a, b with
  | Num x, Num y => if Qeq_bool y 0 then NaN else Num (fdiv x y)
  | _, _ => NaN
  end.

(** [Math.max] and [Math.min]: [NaN] as soon as one argument is [NaN]. *)
Definition max (a b : number) : number :=
  match a, b with
  | Num x, Num y => Num (Qmax x y)
  | _, _ => NaN
  end.

Definition min (a b : number) : number :=
  match a, b with
  | Num x, Num y => Num (Qmin x y)
  | _, _ => NaN
  end.

Definition Qltb (x y : Q) : bool :=
  match (x ?= y)%Q with
  | Lt => true
  | _ => false
  end.

(** [a < b] and [a > b]: false as soon as one operand is [NaN]. *)
Definition lt (a b : number) : bool :=
  match a, b with
  | Num x, Num y => Qltb x y
  | _, _ => false
  end.

Definition gt (a b : number) : bool := lt b a.

(** [a === b] on numbers. *)
Definition strict_eq (a b : number) : bool :=
  match a, b with
  | Num x, Num y => Qeq_bool x y
  | _, _ => false
  end.

(** [v || 0]: every falsy number (zero, [NaN]) and [undefined] give 0. *)
Definition or_zero (v : jsval) : number :=
  match v with
  | JNumber (Num x) => Num x
  | _ => Num 0
  end.

End Number.
Import Number.

(** ** Data model *)

(** [GitHubMetrics], the fields the validator reads. *)
Record GitHubMetrics : Type := mkGitHubMetrics {
  commits_count : jsval;
  commits_authors : list string;
  pullRequests_merged : jsval;
  pullRequests_authors : list string;
  issues_closed : jsval;
  issues_participants : list string;
  github_collectionTimestamp : Z
}.

(** [NEARMetrics], the fields the validator reads. *)
Record NEARMetrics : Type := mkNEARMetrics {
  transactions_count : jsval;
  transactions_uniqueUsers : list string;
  contract_calls : jsval;
  contract_uniqueCallers : list string;
  near_collectionTimestamp : Z
}.

(** [this.thresholds] as it is at run time: the interface declares numbers,
    the constructor stores what it is given. *)
Record ValidationThresholds : Type := mkThresholds {
  maxTimeDrift : jsval;
  minActivityCorrelation : jsval;
  maxDataAge : jsval;
  maxUserDiffRatio : jsval
}.

(** [Partial<ValidationThresholds>]: a key is absent ([None]) or present
    with a value, which may be [undefined]. *)
Record PartialThresholds : Type := mkPartial {
  opt_maxTimeDrift : option jsval;
  opt_minActivityCorrelation : option jsval;
  opt_maxDataAge : option jsval;
  opt_maxUserDiffRatio : option jsval
}.

Definition DEFAULT_THRESHOLDS : ValidationThresholds :=
  {| maxTimeDrift := JNumber (of_Z (6 * 60 * 60 * 1000));
     minActivityCorrelation := JNumber (literal (3 # 10));
     maxDataAge := JNumber (of_Z (24 * 60 * 60 * 1000));
     maxUserDiffRatio := JNumber (literal (1 # 2)) |}.

(** The constructor: [{...DEFAULT_THRESHOLDS, ...thresholds}].  The spread
    copies every key that is present, also one whose value is [undefined]. *)
Definition CrossValidator_new (thresholds : PartialThresholds) : ValidationThresholds :=
  {| maxTimeDrift := default (maxTimeDrift DEFAULT_THRESHOLDS) (opt_maxTimeDrift thresholds);
     minActivityCorrelation :=
       default (minActivityCorrelation DEFAULT_THRESHOLDS) (opt_minActivityCorrelation thresholds);
     maxDataAge := default (maxDataAge DEFAULT_THRESHOLDS) (opt_maxDataAge thresholds);
     maxUserDiffRatio :=
       default (maxUserDiffRatio DEFAULT_THRESHOLDS) (opt_maxUserDiffRatio thresholds) |}.

Definition no_overrides : PartialThresholds := mkPartial None None None None.

(** [ValidationError]; a [ValidationWarning] has the same shape.  Every
    context value the validator writes is a number. *)
Record ValidationError : Type := mkValidationError {
  code : string;
  message : string;
  context : list (string * number)
}.

Definition ValidationWarning : Type := ValidationError.

Record ValidationResult : Type := mkValidationResult {
  isValid : bool;
  errors : list ValidationError;
  warnings : list ValidationWarning;
  timestamp : Z;
  metadata : list (string * string)
}.

(** Modelled from the spec: [ErrorCode] of utils/errors is not part of the
    sources at hand; the spec's code vocabulary gives the member the validator
    uses on its main path. *)
Definition ErrorCode_USER_COUNT_DISCREPANCY : string := "USER_COUNT_DISCREPANCY".

(** ** The heap and the clock *)

(** The objects a call of [validate] can reach: its two arguments and the
    clock read by [Date.now()], given by its future readings. *)
Record Heap : Type := mkHeap {
  github_obj : GitHubMetrics;
  near_obj : NEARMetrics;
  clock : nat -> Z
}.

Definition M (A : Type) : Type := Heap -> A * Heap.

Definition ret {A} (a : A) : M A := fun h => (a, h).

Definition bind {A B} (m : M A) (k : A -> M B) : M B :=
  fun h => let (a, h') := m h in k a h'.

Notation "'let*' x ':=' m 'in' k" := (bind m (fun x => k))
  (at level 10, x name, m at level 100, k at level 200).

Definition load_github : M GitHubMetrics := fun h => (github_obj h, h).
Definition load_near : M NEARMetrics := fun h => (near_obj h, h).

(** [Date.now()]: the next reading; the clock moves on. *)
Definition Date_now : M Z :=
  fun h => (clock h 0%nat,
            {| github_obj := github_obj h;
               near_obj := near_obj h;
               clock := fun n => clock h (S n) |}).

(** [arr.push(x)] on an array held in a local. *)
Definition push {A} (arr : list A) (x : A) : list A := arr ++ [x].

(** ** The validator *)

Section CrossValidator.

(** [this.thresholds] *)
Variable thresholds : ValidationThresholds.

Definition createValidationError
    (code : string) (message : string) (context : list (string * number))
  : ValidationError :=
  {| code := code; message := message; context := context |}.

Definition hasTimestampDrift (github : GitHubMetrics) (near : NEARMetrics) : bool :=
  let githubTimestamp := github_collectionTimestamp github in
  let nearTimestamp := near_collectionTimestamp near in
  let timeDiff := Z.abs (githubTimestamp - nearTimestamp) in
  gt (of_Z timeDiff) (ToNumber (maxTimeDrift thresholds)).

Definition calculateTimeDrift (github : GitHubMetrics) (near : NEARMetrics) : number :=
  of_Z (Z.abs (github_collectionTimestamp github - near_collectionTimestamp near)).

(** The locals [githubActivity] and [nearActivity] of
    [calculateActivityCorrelation]: the counters are added as they are read,
    without defaults. *)
Definition githubActivity (github : GitHubMetrics) : number :=
  div (add (js_add (commits_count github) (pullRequests_merged github))
           (ToNumber (issues_closed github)))
      (Num 3).

Definition nearActivity (near : NEARMetrics) : number :=
  div (js_add (transactions_count near) (contract_calls near)) (Num 2).

Definition calculateActivityCorrelation
    (github : GitHubMetrics) (near : NEARMetrics) : number :=
  let maxActivity := max (githubActivity github) (nearActivity near) in
  if strict_eq maxActivity (Num 0) then Num 1
  else div (min (githubActivity github) (nearActivity near)) maxActivity.

Definition validateActivityCorrelation
    (github : GitHubMetrics) (near : NEARMetrics) (warnings : list ValidationWarning)
  : list ValidationWarning :=
  let correlation := calculateActivityCorrelation github near in
  if lt correlation (ToNumber (minActivityCorrelation thresholds)) then
    push warnings (createValidationError
      "LOW_ACTIVITY_CORRELATION"
      "Low correlation between GitHub and NEAR activity"
      [("correlation"%string, correlation);
       ("threshold"%string, ToNumber (minActivityCorrelation thresholds))])
  else warnings.

Definition validateDataFreshness
    (github : GitHubMetrics) (near : NEARMetrics) (errors : list ValidationError)
  : M (list ValidationError) :=
  let* now := Date_now in
  let errors :=
    if gt (of_Z (now - github_collectionTimestamp github)) (ToNumber (maxDataAge thresholds)) then
      push errors (createValidationError
        "STALE_DATA"
        "GitHub data is too old"
        [("timestamp"%string, of_Z (github_collectionTimestamp github));
         ("maxAge"%string, ToNumber (maxDataAge thresholds))])
    else errors in
  let errors :=
    if gt (of_Z (now - near_collectionTimestamp near)) (ToNumber (maxDataAge thresholds)) then
      push errors (createValidationError
        "STALE_DATA"
        "NEAR data is too old"
        [("timestamp"%string, of_Z (near_collectionTimestamp near));
         ("maxAge"%string, ToNumber (maxDataAge thresholds))])
    else errors in
  ret errors.

Definition githubUsers (github : GitHubMetrics) : gset string :=
  list_to_set (commits_authors github
               ++ pullRequests_authors github
               ++ issues_participants github).

Definition nearUsers (near : NEARMetrics) : gset string :=
  list_to_set (transactions_uniqueUsers near ++ contract_uniqueCallers near).

Definition set_size (s : gset string) : Z := Z.of_nat (size s).

Definition userDiff (github : GitHubMetrics) (near : NEARMetrics) : Z :=
  Z.abs (set_size (githubUsers github) - set_size (nearUsers near)).

Definition maxDiff (github : GitHubMetrics) (near : NEARMetrics) : number :=
  mul (of_Z (Z.max (set_size (githubUsers github)) (set_size (nearUsers near))))
      (ToNumber (maxUserDiffRatio thresholds)).

Definition validateUserEngagement
    (github : GitHubMetrics) (near : NEARMetrics) (warnings : list ValidationWarning)
  : list ValidationWarning :=
  if gt (of_Z (userDiff github near)) (maxDiff github near) then
    push warnings
      {| code := ErrorCode_USER_COUNT_DISCREPANCY;
         message := "Large discrepancy between GitHub and NEAR user counts";
         context :=
           [("githubUsers"%string, of_Z (set_size (githubUsers github)));
            ("nearUsers"%string, of_Z (set_size (nearUsers near)));
            ("difference"%string, of_Z (userDiff github near));
            ("threshold"%string, maxDiff github near)] |}
  else warnings.

Definition validate : M ValidationResult :=
  let* github := load_github in
  let* near := load_near in
  let errors : list ValidationError := [] in
  let warnings : list ValidationWarning := [] in
  let errors :=
    if hasTimestampDrift github near then
      push errors (createValidationError
        "TIMESTAMP_DRIFT"
        "Significant time drift between metrics"
        [("drift"%string, calculateTimeDrift github near)])
    else errors in
  let* errors := validateDataFreshness github near errors in
  let warnings := validateActivityCorrelation github near warnings in
  let warnings := validateUserEngagement github near warnings in
  let* stamp := Date_now in
  ret {| isValid := (length errors =? 0)%nat;
         errors := errors;
         warnings := warnings;
         timestamp := stamp;
         metadata := [("source"%string, "github"%string);
                      ("validationType"%string, "data"%string)] |}.

End CrossValidator.

(** The result of [validate(github, near)] when the clock gives [readings]. *)
Definition run_validate
    (th : ValidationThresholds) (github : GitHubMetrics) (near : NEARMetrics)
    (readings : nat -> Z) : ValidationResult :=
  fst (validate th (mkHeap github near readings)).

(** ** Reading a result *)

(** The entries of a list of findings that carry a given code. *)
Definition with_code (c : string) (l : list ValidationError) : list ValidationError :=
  List.filter (fun e => String.eqb (code e) c) l.

(** [context[key]] *)
Fixpoint context_get (key : string) (ctx : list (string * number)) : option number :=
  match ctx with
  | [] => None
  | (k, v) :: rest => if String.eqb k key then Some v else context_get key rest
  end.

(** The findings of each check, as [validate] appends them. *)
Definition drift_errors (th : ValidationThresholds)
    (github : GitHubMetrics) (near : NEARMetrics) : list ValidationError :=
  if hasTimestampDrift th github near then
    [createValidationError "TIMESTAMP_DRIFT" "Significant time drift between metrics"
       [("drift"%string, calculateTimeDrift github near)]]
  else [].

Definition stale_error (th : ValidationThresholds) (msg : string) (ts : Z) : ValidationError :=
  createValidationError "STALE_DATA" msg
    [("timestamp"%string, of_Z ts); ("maxAge"%string, ToNumber (maxDataAge th))].

Definition stale_errors (th : ValidationThresholds) (now : Z) (msg : string) (ts : Z)
  : list ValidationError :=
  if gt (of_Z (now - ts)) (ToNumber (maxDataAge th)) then [stale_error th msg ts] else [].

Definition github_stale_msg : string := "GitHub data is too old".
Definition near_stale_msg : string := "NEAR data is too old".

Definition low_correlation_warnings (th : ValidationThresholds)
    (github : GitHubMetrics) (near : NEARMetrics) : list ValidationWarning :=
  validateActivityCorrelation th github near [].

Definition user_count_warnings (th : ValidationThresholds)
    (github : GitHubMetrics) (near : NEARMetrics) : list ValidationWarning :=
  validateUserEngagement th github near [].

(** ** Sample inputs *)

Module Samples.

Definition counter (z : Z) : jsval := JNumber (of_Z z).

Definition hour : Z := 60 * 60 * 1000.

(** Code activity collected at [ts]: three users, twelve events. *)
Definition github_at (ts : Z) : GitHubMetrics :=
  {| commits_count := counter 9;
     commits_authors := ["alice"; "bob"]%string;
     pullRequests_merged := counter 2;
     pullRequests_authors := ["bob"]%string;
     issues_closed := counter 1;
     issues_participants := ["carol"; "alice"]%string;
     github_collectionTimestamp := ts |}.

(** Ledger activity collected at [ts]: two users, eight events. *)
Definition near_at (ts : Z) : NEARMetrics :=
  {| transactions_count := counter 5;
     transactions_uniqueUsers := ["alice.near"; "bob.near"]%string;
     contract_calls := counter 3;
     contract_uniqueCallers := ["bob.near"]%string;
     near_collectionTimestamp := ts |}.

(** Both sources idle, no users. *)
Definition idle_github (ts : Z) : GitHubMetrics :=
  mkGitHubMetrics (counter 0) [] (counter 0) [] (counter 0) [] ts.

Definition idle_near (ts : Z) : NEARMetrics :=
  mkNEARMetrics (counter 0) [] (counter 0) [] ts.

(** A ledger record with activity but nobody on the code side. *)
Definition busy_near (ts : Z) : NEARMetrics :=
  mkNEARMetrics (counter 10) ["alice.near"]%string (counter 10) [] ts.

(** A code-activity record whose commit counter reads as [count]; the other
    counters are 0. *)
Definition github_with_commits (count : jsval) (ts : Z) : GitHubMetrics :=
  mkGitHubMetrics count [] (counter 0) ["alice"]%string (counter 0) [] ts.

(** The commit counter is missing. *)
Definition github_missing_commits (ts : Z) : GitHubMetrics :=
  github_with_commits JUndefined ts.

(** The commit counter is the falsy number [NaN]. *)
Definition github_NaN_commits (ts : Z) : GitHubMetrics :=
  github_with_commits (JNumber NaN) ts.

(** [n] distinct user identifiers (for [n] up to 256). *)
Fixpoint user_ids (n : nat) : list string :=
  match n with
  | O => []
  | S k => String (Ascii.ascii_of_nat k) EmptyString :: user_ids k
  end.

(** A clock that starts at [t0] and advances one millisecond per reading. *)
Definition clock_from (t0 : Z) : nat -> Z := fun n => t0 + Z.of_nat n.

Definition with_maxTimeDrift (q : Q) : ValidationThresholds :=
  CrossValidator_new (mkPartial (Some (JNumber (Num q))) None None None).

Definition with_minActivityCorrelation (q : Q) : ValidationThresholds :=
  CrossValidator_new (mkPartial None (Some (JNumber (Num q))) None None).

Definition with_maxUserDiffRatio (q : Q) : ValidationThresholds :=
  CrossValidator_new (mkPartial None None None (Some (JNumber (Num q)))).

End Samples.

(** ** The specification's wording *)

(** The user sets as the specification words them: the union of the
    deduplicated identifier sets of each source. *)
Definition usersA (github : GitHubMetrics) : gset string :=
  list_to_set (commits_authors github)
  ∪ list_to_set (pullRequests_authors github)
  ∪ list_to_set (issues_participants github).

Definition usersB (near : NEARMetrics) : gset string :=
  list_to_set (transactions_uniqueUsers near)
  ∪ list_to_set (contract_uniqueCallers near).

(** The activity aggregates as the specification words them: a counter that
    is missing or falsy contributes zero ([counter || 0]). *)
Definition githubActivity_defaults (github : GitHubMetrics) : number :=
  div (add (add (or_zero (commits_count github)) (or_zero (pullRequests_merged github)))
           (or_zero (issues_closed github)))
      (Num 3).

Definition nearActivity_defaults (near : NEARMetrics) : number :=
  div (add (or_zero (transactions_count near)) (or_zero (contract_calls near))) (Num 2).

Definition calculateActivityCorrelation_defaults
    (github : GitHubMetrics) (near : NEARMetrics) : number :=
  let maxActivity := max (githubActivity_defaults github) (nearActivity_defaults near) in
  if strict_eq maxActivity (Num 0) then Num 1
  else div (min (githubActivity_defaults github) (nearActivity_defaults near)) maxActivity.

(** ** The second timestamp check *)

(** Modelled from the spec: [ErrorCode] of utils/errors is not part of the
    sources at hand; the spec's code vocabulary gives the member that
    [validateTimestamps] uses. *)
Definition ErrorCode_TIMESTAMP_DRIFT : string := "TIMESTAMP_DRIFT".

(** [validateTimestamps], the private method that [validate] does not call. *)
Definition validateTimestamps (th : ValidationThresholds)
    (github : GitHubMetrics) (near : NEARMetrics) (errors : list ValidationError)
  : list ValidationError :=
  let githubTimestamp := github_collectionTimestamp github in
  let nearTimestamp := near_collectionTimestamp near in
  let timeDiff := Z.abs (githubTimestamp - nearTimestamp) in
  if gt (of_Z timeDiff) (ToNumber (maxTimeDrift th)) then
    push errors
      {| code := ErrorCode_TIMESTAMP_DRIFT;
         message := "Significant time drift between GitHub and NEAR metrics";
         context :=
           [("githubTimestamp"%string, of_Z githubTimestamp);
            ("nearTimestamp"%string, of_Z nearTimestamp);
            ("drift"%string, of_Z timeDiff);
            ("threshold"%string, ToNumber (maxTimeDrift th))] |}
  else errors.

(** ** The correlation on finite activity levels *)

(** What [calculateActivityCorrelation] computes from its two locals when
    both are finite: the guard on [maxActivity], then [min / max]. *)
Definition activity_ratio (a b : Q) : Q :=
  if Qeq_bool (Qmax a b) 0 then 1 else fdiv (Qmin a b) (Qmax a b).


(** ** Proof automation *)

(** Turns the outcome of a comparison of rationals into the order fact. *)
Ltac Qcompare_facts :=
  repeat match goal with
  | H : (_ ?= _)%Q = Eq |- _ => apply Qeq_alt in H
  | H : (_ ?= _)%Q = Lt |- _ => apply Qlt_alt in H
  | H : (_ ?= _)%Q = Gt |- _ => apply Qgt_alt in H
  end.

(** * Binary64 rounding *)

(** ** Powers of two and the exponent *)

Lemma pow2_pos e : (0 < pow2 e)%Q.
Proof. apply Qpower_0_lt. reflexivity. Qed.

Lemma pow2_add a b : (pow2 (a + b) == pow2 a * pow2 b)%Q.
Proof. apply Qpower_plus. discriminate. Qed.

Lemma pow2_opp a : (pow2 (- a) == / pow2 a)%Q.
Proof. apply Qpower_opp. Qed.

Lemma pow2_succ a : (pow2 (a + 1) == 2 * pow2 a)%Q.
Proof. rewrite pow2_add. unfold pow2 at 2. simpl. ring. Qed.

Lemma pow2_le a b : a <= b -> (pow2 a <= pow2 b)%Q.
Proof.
  intros H. replace b with (a + (b - a)) by lia. rewrite pow2_add.
  rewrite <- (Qmult_1_r (pow2 a)) at 1.
  apply Qmult_le_l; [apply pow2_pos|].
  unfold pow2. apply Qpower_1_le; [discriminate | lia].
Qed.

Lemma pow2_lt a b : a < b -> (pow2 a < pow2 b)%Q.
Proof.
  intros H. apply Qlt_le_trans with (pow2 (a + 1)).
  - rewrite pow2_succ. pose proof (pow2_pos a). lra.
  - apply pow2_le. lia.
Qed.

Lemma pow2_lt_inv a b : (pow2 a < pow2 b)%Q -> a < b.
Proof.
  intros H. destruct (Z_lt_le_dec a b) as [Hlt | Hle]; [exact Hlt|].
  apply pow2_le in Hle. lra.
Qed.

Lemma pow2_Z n : 0 <= n -> (inject_Z (2 ^ n) == pow2 n)%Q.
Proof. intros H. unfold pow2. rewrite Zpower_Qpower by exact H. reflexivity. Qed.

Lemma floor_log2_spec x :
  (0 < x)%Q -> (pow2 (floor_log2 x) <= x < pow2 (floor_log2 x + 1))%Q.
Proof.
  intros Hx. destruct x as [n d].
  assert (Hn : 0 < n).
  { unfold Qlt in Hx. simpl in Hx. lia. }
  unfold floor_log2. cbn [Qnum Qden].
  set (a := Z.log2 n). set (b := Z.log2 (Zpos d)).
  pose proof (Z.log2_nonneg n) as Ha0. fold a in Ha0.
  pose proof (Z.log2_nonneg (Zpos d)) as Hb0. fold b in Hb0.
  destruct (Z.log2_spec n Hn) as [Ha1 Ha2]. fold a in Ha1, Ha2.
  destruct (Z.log2_spec (Zpos d) eq_refl) as [Hb1 Hb2]. fold b in Hb1, Hb2.
  rewrite Zle_Qle, pow2_Z in Ha1 by lia.
  rewrite Zlt_Qlt, pow2_Z in Ha2 by lia.
  rewrite Zle_Qle, pow2_Z in Hb1 by lia.
  rewrite Zlt_Qlt, pow2_Z in Hb2 by lia.
  replace (Z.succ a) with (a + 1) in Ha2 by lia.
  replace (Z.succ b) with (b + 1) in Hb2 by lia.
  assert (Hx' : (n # d == inject_Z n / inject_Z (Zpos d))%Q) by apply Qmake_Qdiv.
  assert (Hd : (0 < inject_Z (Zpos d))%Q) by reflexivity.
  set (N := inject_Z n) in *. set (D := inject_Z (Zpos d)) in *.
  assert (HxD : ((n # d) * D == N)%Q).
  { rewrite Hx'. field. intros H. rewrite H in Hd. discriminate. }
  pose proof (pow2_pos a) as Pa. pose proof (pow2_pos b) as Pb.
  destruct (Qle_bool (pow2 (a - b)) (n # d)) eqn:E.
  - apply Qle_bool_iff in E. split; [exact E|].
    replace (a - b + 1) with ((a + 1) + - b) by lia.
    rewrite pow2_add, pow2_opp.
    apply Qlt_shift_div_l; [exact Pb|].
    apply Qle_lt_trans with ((n # d) * D)%Q; [|rewrite HxD; exact Ha2].
    apply Qmult_le_l; [exact Hx | exact Hb1].
  - assert (E' : ~ (pow2 (a - b) <= n # d)%Q).
    { intros H. apply Qle_bool_iff in H. congruence. }
    split.
    + replace (a - b - 1) with (a + - (b + 1)) by lia.
      rewrite pow2_add, pow2_opp.
      apply Qle_shift_div_r; [apply pow2_pos|].
      apply Qle_trans with ((n # d) * D)%Q; [rewrite HxD; exact Ha1|].
      apply Qmult_le_l; [exact Hx | apply Qlt_le_weak; exact Hb2].
    + replace (a - b - 1 + 1) with (a - b) by lia.
      apply Qnot_le_lt. exact E'.
Qed.

Lemma floor_log2_unique x k :
  (pow2 k <= x < pow2 (k + 1))%Q -> floor_log2 x = k.
Proof.
  intros [H1 H2].
  assert (Hx : (0 < x)%Q) by (pose proof (pow2_pos k); lra).
  destruct (floor_log2_spec x Hx) as [H3 H4].
  assert (floor_log2 x < k + 1) by (apply pow2_lt_inv; lra).
  assert (k < floor_log2 x + 1) by (apply pow2_lt_inv; lra).
  lia.
Qed.

Lemma floor_log2_compat x y : (0 < x)%Q -> (x == y)%Q -> floor_log2 x = floor_log2 y.
Proof.
  intros Hx Hxy. symmetry. apply floor_log2_unique. rewrite <- Hxy.
  apply floor_log2_spec. exact Hx.
Qed.

Lemma floor_log2_mono x y : (0 < x)%Q -> (x <= y)%Q -> floor_log2 x <= floor_log2 y.
Proof.
  intros Hx Hxy.
  destruct (floor_log2_spec x Hx) as [H1 _].
  destruct (floor_log2_spec y) as [_ H2]; [lra|].
  assert (floor_log2 x < floor_log2 y + 1) by (apply pow2_lt_inv; lra).
  lia.
Qed.

Lemma rne_compat y y' : (y == y')%Q -> rne y = rne y'.
Proof.
  intros H. unfold rne.
  assert (Hf : Qfloor y = Qfloor y') by (rewrite H; reflexivity).
  rewrite Hf.
  assert (Hc : (y - inject_Z (Qfloor y') ?= 1 # 2)%Q =
               (y' - inject_Z (Qfloor y') ?= 1 # 2)%Q).
  { apply Qcompare_comp; [rewrite H; reflexivity | reflexivity]. }
  rewrite Hc. reflexivity.
Qed.

Lemma rne_floor y : Qfloor y <= rne y <= Qfloor y + 1.
Proof.
  unfold rne. destruct (_ ?= _)%Q; [destruct (Z.even _)| |]; lia.
Qed.

Lemma rne_Z z : rne (inject_Z z) = z.
Proof.
  unfold rne. rewrite Qfloor_Z.
  assert (H : (inject_Z z - inject_Z z ?= 1 # 2)%Q = Lt).
  { apply Qlt_alt.
    assert (E : (inject_Z z - inject_Z z == 0)%Q) by ring.
    rewrite E. reflexivity. }
  rewrite H. reflexivity.
Qed.

Lemma rne_bounds y :
  (inject_Z (rne y) - (1 # 2) <= y <= inject_Z (rne y) + (1 # 2))%Q.
Proof.
  pose proof (Qfloor_le y) as H1. pose proof (Qlt_floor y) as H2.
  rewrite inject_Z_plus in H2. change (inject_Z 1) with 1%Q in H2.
  unfold rne. destruct (_ ?= _)%Q eqn:E.
  - apply Qeq_alt in E. destruct (Z.even _).
    + lra.
    + rewrite inject_Z_plus. change (inject_Z 1) with 1%Q. lra.
  - apply Qlt_alt in E. lra.
  - apply Qgt_alt in E. rewrite inject_Z_plus. change (inject_Z 1) with 1%Q. lra.
Qed.

Lemma rne_mono y1 y2 : (y1 <= y2)%Q -> rne y1 <= rne y2.
Proof.
  intros H. pose proof (Qfloor_resp_le _ _ H) as Hf.
  pose proof (rne_floor y1) as B1. pose proof (rne_floor y2) as B2.
  destruct (Z.eq_dec (Qfloor y1) (Qfloor y2)) as [Heq | Hne]; [|lia].
  unfold rne. rewrite <- Heq.
  destruct (y1 - inject_Z (Qfloor y1) ?= 1 # 2)%Q eqn:E1;
    destruct (y2 - inject_Z (Qfloor y1) ?= 1 # 2)%Q eqn:E2;
    try (destruct (Z.even (Qfloor y1)); lia); try lia;
    Qcompare_facts; exfalso; lra.
Qed.

Lemma scaled_range x :
  (0 < x)%Q ->
  (pow2 52 <= x / pow2 (floor_log2 x - 52) < pow2 53)%Q.
Proof.
  intros Hx. destruct (floor_log2_spec x Hx) as [H1 H2].
  set (f := floor_log2 x) in *.
  pose proof (pow2_pos (f - 52)) as HP.
  assert (E1 : (pow2 f == pow2 52 * pow2 (f - 52))%Q).
  { rewrite <- pow2_add. replace (52 + (f - 52)) with f by lia. reflexivity. }
  assert (E2 : (pow2 (f + 1) == pow2 53 * pow2 (f - 52))%Q).
  { rewrite <- pow2_add. replace (53 + (f - 52)) with (f + 1) by lia. reflexivity. }
  split.
  - apply Qle_shift_div_l; [exact HP|]. rewrite <- E1. exact H1.
  - apply Qlt_shift_div_r; [exact HP|]. rewrite <- E2. exact H2.
Qed.

Lemma rne_scaled_range x :
  (0 < x)%Q ->
  2 ^ 52 <= rne (x / pow2 (floor_log2 x - 52)) <= 2 ^ 53.
Proof.
  intros Hx. destruct (scaled_range x Hx) as [H1 H2]. split.
  - rewrite <- (rne_Z (2 ^ 52)). apply rne_mono.
    rewrite pow2_Z by lia. exact H1.
  - rewrite <- (rne_Z (2 ^ 53)). apply rne_mono.
    rewrite pow2_Z by lia. apply Qlt_le_weak. exact H2.
Qed.

Lemma round_pos_pos x : (0 < x)%Q -> (0 < round_pos x)%Q.
Proof.
  intros Hx. unfold round_pos.
  destruct (rne_scaled_range x Hx) as [H _].
  apply Qmult_lt_0_compat; [|apply pow2_pos].
  change 0%Q with (inject_Z 0). rewrite <- Zlt_Qlt. lia.
Qed.

Lemma round_pos_compat x y : (0 < x)%Q -> (x == y)%Q -> (round_pos x == round_pos y)%Q.
Proof.
  intros Hx Hxy. unfold round_pos.
  rewrite <- (floor_log2_compat x y Hx Hxy).
  rewrite (rne_compat (x / pow2 (floor_log2 x - 52)) (y / pow2 (floor_log2 x - 52))).
  - reflexivity.
  - unfold Qdiv. apply Qmult_comp; [exact Hxy | reflexivity].
Qed.

Lemma round_pos_mono x y : (0 < x)%Q -> (x <= y)%Q -> (round_pos x <= round_pos y)%Q.
Proof.
  intros Hx Hxy. assert (Hy : (0 < y)%Q) by lra.
  pose proof (floor_log2_mono x y Hx Hxy) as Hf.
  destruct (rne_scaled_range x Hx) as [_ Hx2].
  destruct (rne_scaled_range y Hy) as [Hy1 _].
  unfold round_pos.
  set (ex := floor_log2 x - 52) in *. set (ey := floor_log2 y - 52) in *.
  pose proof (pow2_pos ex) as Pex. pose proof (pow2_pos ey) as Pey.
  destruct (Z.eq_dec ex ey) as [Heq | Hne].
  - rewrite <- Heq. apply Qmult_le_compat_r; [|lra].
    rewrite <- Zle_Qle. apply rne_mono.
    apply Qmult_le_compat_r; [exact Hxy|].
    apply Qlt_le_weak, Qinv_lt_0_compat. exact Pex.
  - assert (Hlt : ex + 1 <= ey) by lia.
    apply Qle_trans with (inject_Z (2 ^ 53) * pow2 ex)%Q.
    + apply Qmult_le_compat_r; [|lra]. rewrite <- Zle_Qle. exact Hx2.
    + apply Qle_trans with (inject_Z (2 ^ 52) * pow2 ey)%Q.
      * apply pow2_le in Hlt. rewrite pow2_succ in Hlt.
        change (inject_Z (2 ^ 53)) with (2 * inject_Z (2 ^ 52))%Q.
        set (c := inject_Z (2 ^ 52)).
        assert (0 < c)%Q by reflexivity. nra.
      * apply Qmult_le_compat_r; [|lra]. rewrite <- Zle_Qle. exact Hy1.
Qed.

Lemma round64_pos_eq x : (0 < x)%Q -> round64 x = round_pos x.
Proof.
  destruct x as [[|n|n] d]; intros H; try reflexivity; discriminate H.
Qed.

Lemma round64_neg_eq x : (x < 0)%Q -> round64 x = (- round_pos (- x))%Q.
Proof.
  destruct x as [[|n|n] d]; intros H; try reflexivity; discriminate H.
Qed.

Lemma round64_zero_eq x : (x == 0)%Q -> round64 x = 0%Q.
Proof.
  destruct x as [[|n|n] d]; intros H; try reflexivity; discriminate H.
Qed.

Lemma round64_cases x :
  ((0 < x)%Q /\ round64 x = round_pos x)
  \/ ((x == 0)%Q /\ round64 x = 0%Q)
  \/ ((x < 0)%Q /\ round64 x = (- round_pos (- x))%Q).
Proof.
  destruct (Q_dec x 0) as [[H | H] | H].
  - right. right. split; [exact H | apply round64_neg_eq; exact H].
  - left. split; [exact H | apply round64_pos_eq; exact H].
  - right. left. split; [exact H | apply round64_zero_eq; exact H].
Qed.

Lemma round64_compat x y : (x == y)%Q -> (round64 x == round64 y)%Q.
Proof.
  intros H.
  destruct (round64_cases x) as [[Hx ->] | [[Hx ->] | [Hx ->]]].
  - rewrite (round64_pos_eq y) by lra. apply round_pos_compat; assumption.
  - rewrite (round64_zero_eq y) by lra. reflexivity.
  - rewrite (round64_neg_eq y) by lra.
    apply Qopp_comp. apply round_pos_compat; [lra | rewrite H; reflexivity].
Qed.

Lemma round64_mono x y : (x <= y)%Q -> (round64 x <= round64 y)%Q.
Proof.
  intros H.
  destruct (round64_cases x) as [[Hx ->] | [[Hx ->] | [Hx ->]]];
    destruct (round64_cases y) as [[Hy ->] | [[Hy ->] | [Hy ->]]];
    try (exfalso; lra).
  - apply round_pos_mono; assumption.
  - apply Qlt_le_weak, round_pos_pos. exact Hy.
  - apply Qle_refl.
  - pose proof (round_pos_pos (- x)). pose proof (round_pos_pos y). lra.
  - pose proof (round_pos_pos (- x)). lra.
  - assert (round_pos (- y) <= round_pos (- x))%Q by (apply round_pos_mono; lra).
    lra.
Qed.

Lemma round64_opp x : (round64 (- x) == - round64 x)%Q.
Proof.
  destruct (round64_cases x) as [[Hx ->] | [[Hx ->] | [Hx ->]]].
  - rewrite (round64_neg_eq (- x)) by lra.
    apply Qopp_comp. apply round_pos_compat; [lra | ring].
  - rewrite (round64_zero_eq (- x)) by lra. reflexivity.
  - rewrite (round64_pos_eq (- x)) by lra. ring.
Qed.

Lemma round64_pos x : (0 < x)%Q -> (0 < round64 x)%Q.
Proof. intros H. rewrite round64_pos_eq by exact H. apply round_pos_pos. exact H. Qed.

Lemma round64_nonneg x : (0 <= x)%Q -> (0 <= round64 x)%Q.
Proof. intros H. change 0%Q with (round64 0) at 1. apply round64_mono. exact H. Qed.

Lemma round64_eq_0 x : (round64 x == 0)%Q <-> (x == 0)%Q.
Proof.
  split.
  - intros H. destruct (round64_cases x) as [[Hx E] | [[Hx E] | [Hx E]]].
    + pose proof (round64_pos x Hx). lra.
    + exact Hx.
    + rewrite E in H. pose proof (round_pos_pos (- x)). lra.
  - intros H. rewrite (round64_zero_eq x H). reflexivity.
Qed.

Lemma pow2_neq_0 e : ~ (pow2 e == 0)%Q.
Proof. pose proof (pow2_pos e). lra. Qed.

Lemma round_pos_exact_scaled x z :
  (x / pow2 (floor_log2 x - 52) == inject_Z z)%Q -> (round_pos x == x)%Q.
Proof.
  intros H. unfold round_pos. rewrite (rne_compat _ _ H), rne_Z, <- H.
  field. apply pow2_neq_0.
Qed.

Lemma round_pos_exact m e :
  0 < m <= 2 ^ 53 ->
  (round_pos (inject_Z m * pow2 e) == inject_Z m * pow2 e)%Q.
Proof.
  intros [Hm1 Hm2].
  set (x := (inject_Z m * pow2 e)%Q).
  assert (HM : (0 < inject_Z m)%Q).
  { change 0%Q with (inject_Z 0). rewrite <- Zlt_Qlt. exact Hm1. }
  assert (Hx : (0 < x)%Q) by (apply Qmult_lt_0_compat; [exact HM | apply pow2_pos]).
  destruct (scaled_range x Hx) as [H1 H2].
  set (E := floor_log2 x - 52) in *.
  assert (Hs : (x / pow2 E == inject_Z m * pow2 (e - E))%Q).
  { unfold x. replace (e - E) with (e + - E) by lia. rewrite pow2_add, pow2_opp.
    field. apply pow2_neq_0. }
  destruct (Z_le_gt_dec E e) as [Hle | Hgt].
  - apply (round_pos_exact_scaled x (m * 2 ^ (e - E))).
    fold E. rewrite Hs, inject_Z_mult, pow2_Z by lia. reflexivity.
  - assert (Hm2' : (inject_Z m <= pow2 53)%Q).
    { rewrite <- pow2_Z by lia. rewrite <- Zle_Qle. exact Hm2. }
    assert (Hd : (pow2 (e - E) <= pow2 (- 1))%Q) by (apply pow2_le; lia).
    assert (Hlow : (pow2 52 <= inject_Z m * pow2 (e - E))%Q) by (rewrite <- Hs; exact H1).
    pose proof (pow2_pos (e - E)) as Hp.
    change (pow2 (-1)) with (1 # 2)%Q in Hd.
    change (pow2 53) with (2 * pow2 52)%Q in Hm2'.
    assert (P52 : (0 < pow2 52)%Q) by apply pow2_pos.
    assert (Heq : (inject_Z m * pow2 (e - E) == pow2 52)%Q).
    { apply Qle_antisym; [|exact Hlow].
      apply Qle_trans with (inject_Z m * (1 # 2))%Q.
      - apply Qmult_le_l; assumption.
      - lra. }
    apply (round_pos_exact_scaled x (2 ^ 52)).
    fold E. rewrite Hs, Heq, pow2_Z by lia. reflexivity.
Qed.

Lemma round64_exact m e :
  - 2 ^ 53 <= m <= 2 ^ 53 -> is_double (inject_Z m * pow2 e).
Proof.
  intros Hm. unfold is_double.
  destruct (Z.lt_trichotomy m 0) as [Hneg | [-> | Hpos]].
  - assert (E : (inject_Z m * pow2 e == - (inject_Z (- m) * pow2 e))%Q).
    { rewrite inject_Z_opp. ring. }
    rewrite (round64_compat _ _ E), round64_opp.
    assert (Hx : (0 < inject_Z (- m) * pow2 e)%Q).
    { apply Qmult_lt_0_compat; [|apply pow2_pos].
      change 0%Q with (inject_Z 0). rewrite <- Zlt_Qlt. lia. }
    rewrite (round64_pos_eq _ Hx), round_pos_exact by lia.
    rewrite E. reflexivity.
  - rewrite round64_zero_eq; [|ring]. ring.
  - assert (Hx : (0 < inject_Z m * pow2 e)%Q).
    { apply Qmult_lt_0_compat; [|apply pow2_pos].
      change 0%Q with (inject_Z 0). rewrite <- Zlt_Qlt. lia. }
    rewrite (round64_pos_eq _ Hx). apply round_pos_exact. lia.
Qed.

Lemma is_double_compat x y : (x == y)%Q -> is_double x -> is_double y.
Proof.
  unfold is_double. intros H Hx. rewrite <- (round64_compat _ _ H), Hx. exact H.
Qed.

Lemma is_double_Z z : - 2 ^ 53 <= z <= 2 ^ 53 -> is_double (inject_Z z).
Proof.
  intros H. apply (is_double_compat (inject_Z z * pow2 0)).
  - change (pow2 0) with 1%Q. ring.
  - apply round64_exact. exact H.
Qed.

Lemma round_pos_mantissa x :
  (0 < x)%Q ->
  exists m, (round_pos x == inject_Z m * pow2 (floor_log2 x - 52))%Q
            /\ 2 ^ 52 <= m <= 2 ^ 53.
Proof.
  intros Hx. exists (rne (x / pow2 (floor_log2 x - 52))). split.
  - reflexivity.
  - apply rne_scaled_range. exact Hx.
Qed.

Lemma round64_idem x : is_double (round64 x).
Proof.
  destruct (round64_cases x) as [[Hx ->] | [[Hx ->] | [Hx ->]]].
  - destruct (round_pos_mantissa x Hx) as (m & Hm & Hr).
    apply (is_double_compat (inject_Z m * pow2 (floor_log2 x - 52))).
    + symmetry. exact Hm.
    + apply round64_exact. lia.
  - reflexivity.
  - assert (Hx' : (0 < - x)%Q) by lra.
    destruct (round_pos_mantissa (- x) Hx') as (m & Hm & Hr).
    apply (is_double_compat (inject_Z (- m) * pow2 (floor_log2 (- x) - 52))).
    + rewrite Hm, inject_Z_opp. ring.
    + apply round64_exact. lia.
Qed.

Lemma round64_upper x :
  (0 < x)%Q -> (round64 x <= x * (1 + pow2 (- 53)))%Q.
Proof.
  intros Hx. rewrite (round64_pos_eq x Hx). unfold round_pos.
  destruct (scaled_range x Hx) as [H1 _].
  set (E := floor_log2 x - 52) in *.
  pose proof (pow2_pos E) as HP.
  pose proof (rne_bounds (x / pow2 E)) as [Hb _].
  set (s := (x / pow2 E)%Q) in *. set (r := inject_Z (rne s)) in *.
  assert (Hxs : (x == s * pow2 E)%Q).
  { unfold s. field. apply pow2_neq_0. }
  assert (Hr : (r <= s * (1 + pow2 (- 53)))%Q).
  { assert (Hhalf : (1 # 2 <= s * pow2 (- 53))%Q).
    { apply Qle_trans with (pow2 52 * pow2 (- 53))%Q.
      - rewrite <- pow2_add. simpl. apply Qle_refl.
      - apply Qmult_le_compat_r; [exact H1|]. apply Qlt_le_weak, pow2_pos. }
    lra. }
  rewrite Hxs.
  setoid_replace (s * pow2 E * (1 + pow2 (-53)))%Q
    with (s * (1 + pow2 (-53)) * pow2 E)%Q using relation Qeq by ring.
  apply Qmult_le_compat_r; [exact Hr | lra].
Qed.

Lemma is_double_mantissa a :
  is_double a -> (0 < a)%Q ->
  exists m, (a == inject_Z m * pow2 (floor_log2 a - 52))%Q
            /\ 2 ^ 52 <= m < 2 ^ 53.
Proof.
  intros Ha Hpos. unfold is_double in Ha. rewrite (round64_pos_eq a Hpos) in Ha.
  destruct (round_pos_mantissa a Hpos) as (m & Hm & [Hm1 Hm2]).
  destruct (scaled_range a Hpos) as [_ H2].
  set (E := floor_log2 a - 52) in *.
  assert (Hma : (a == inject_Z m * pow2 E)%Q).
  { apply Qeq_trans with (round_pos a); [symmetry; exact Ha | exact Hm]. }
  exists m. split; [exact Hma|]. split; [exact Hm1|].
  assert (Hs : (a / pow2 E == inject_Z m)%Q).
  { rewrite Hma. field. apply pow2_neq_0. }
  rewrite Hs, <- pow2_Z, <- Zlt_Qlt in H2 by lia. exact H2.
Qed.

Lemma double_ratio_le a b :
  is_double a -> is_double b -> (0 < a)%Q -> (a < b)%Q -> (a / b <= pred_one)%Q.
Proof.
  intros Da Db Ha Hab. assert (Hb : (0 < b)%Q) by lra.
  destruct (is_double_mantissa a Da Ha) as (ma & Ea & Ma1 & Ma2).
  destruct (is_double_mantissa b Db Hb) as (mb & Eb & Mb1 & Mb2).
  pose proof (floor_log2_mono a b Ha (Qlt_le_weak _ _ Hab)) as Hf.
  set (ea := floor_log2 a - 52) in *. set (eb := floor_log2 b - 52) in *.
  pose proof (pow2_pos ea) as Pa. pose proof (pow2_pos eb) as Pb.
  assert (Ma2z := Ma2). assert (Mb2z := Mb2).
  rewrite Zle_Qle in Ma1, Mb1. rewrite Zlt_Qlt in Ma2, Mb2.
  apply Qle_shift_div_r; [exact Hb|].
  set (u := pow2 (- 53)). unfold pred_one. fold u.
  assert (Hu : (u == 1 # 9007199254740992)%Q) by reflexivity.
  change (inject_Z (2 ^ 52)) with (4503599627370496 # 1)%Q in *.
  change (inject_Z (2 ^ 53)) with (9007199254740992 # 1)%Q in *.
  destruct (Z.eq_dec ea eb) as [Heq | Hne].
  - rewrite <- Heq in Eb.
    assert (Hlt : ma < mb).
    { rewrite Zlt_Qlt. apply (Qmult_lt_r _ _ (pow2 ea) Pa).
      rewrite <- Ea, <- Eb. exact Hab. }
    assert (Hle : (inject_Z ma <= inject_Z mb - 1)%Q).
    { assert (H' : ma <= mb + - 1) by lia.
      rewrite Zle_Qle, inject_Z_plus in H'. exact H'. }
    rewrite Ea, Eb. rewrite Qmult_assoc.
    apply Qmult_le_compat_r; [|lra]. rewrite Hu. lra.
  - assert (Hlt : ea + 1 <= eb) by lia.
    apply pow2_le in Hlt. rewrite pow2_succ in Hlt.
    assert (Hle : (inject_Z ma <= (9007199254740992 # 1) - 1)%Q).
    { change ((9007199254740992 # 1) - 1)%Q with (inject_Z (2 ^ 53 - 1)).
      rewrite <- Zle_Qle. lia. }
    rewrite Ea, Eb.
    apply Qle_trans with (((9007199254740992 # 1) - 1) * pow2 ea)%Q.
    + apply Qmult_le_compat_r; [exact Hle | lra].
    + apply Qle_trans with ((1 - u) * ((4503599627370496 # 1) * (2 * pow2 ea)))%Q.
      * apply Qle_lteq. right. rewrite Hu. ring.
      * apply Qmult_le_l; [rewrite Hu; reflexivity|].
        apply Qle_trans with ((4503599627370496 # 1) * pow2 eb)%Q.
        -- apply Qmult_le_l; [reflexivity | exact Hlt].
        -- apply Qmult_le_compat_r; [exact Mb1 | lra].
Qed.

Lemma is_double_pred_one : is_double pred_one.
Proof.
  apply (is_double_compat (inject_Z (2 ^ 53 - 1) * pow2 (- 53))).
  - reflexivity.
  - apply round64_exact. lia.
Qed.

Lemma is_double_1 : is_double 1.
Proof. apply (is_double_Z 1). lia. Qed.

Lemma is_double_0 : is_double 0.
Proof. reflexivity. Qed.

Lemma round64_ratio_lt_1 a b :
  is_double a -> is_double b -> (0 < a)%Q -> (a < b)%Q -> (round64 (a / b) < 1)%Q.
Proof.
  intros Da Db Ha Hab.
  pose proof is_double_pred_one as Hp. unfold is_double in Hp.
  apply Qle_lt_trans with (round64 pred_one).
  - apply round64_mono. apply double_ratio_le; assumption.
  - rewrite Hp. reflexivity.
Qed.

Lemma double_below_1 r : is_double r -> (r < 1)%Q -> (r <= pred_one)%Q.
Proof.
  intros Dr Hr. destruct (Qlt_le_dec 0 r) as [Hpos | Hneg].
  - assert (E : (r == r / 1)%Q) by (field).
    rewrite E. apply double_ratio_le; [exact Dr | apply is_double_1 | exact Hpos | exact Hr].
  - apply Qle_trans with 0%Q; [exact Hneg | discriminate].
Qed.

Lemma round64_scaled_below M r :
  (0 < M)%Q -> is_double r -> (r < 1)%Q -> (round64 (M * r) < M)%Q.
Proof.
  intros HM Dr Hr. pose proof (double_below_1 r Dr Hr) as Hle.
  destruct (Qlt_le_dec 0 (M * r)) as [Hpos | Hneg].
  - apply Qle_lt_trans with (M * r * (1 + pow2 (- 53)))%Q;
      [apply round64_upper; exact Hpos|].
    apply Qle_lt_trans with (M * pred_one * (1 + pow2 (- 53)))%Q.
    + apply Qmult_le_compat_r; [|discriminate].
      apply Qmult_le_l; assumption.
    + unfold pred_one. change (pow2 (-53)) with (1 # 9007199254740992)%Q.
      lra.
  - apply Qle_lt_trans with 0%Q; [|exact HM].
    change 0%Q with (round64 0). apply round64_mono. exact Hneg.
Qed.

Lemma round64_1 : (round64 1 == 1)%Q.
Proof. apply is_double_1. Qed.
(** * The validator *)

(** ** Basic facts *)

Lemma Qltb_lt (x y : Q) : Qltb x y = true <-> (x < y)%Q.
Proof.
  unfold Qltb. rewrite Qlt_alt.
  destruct (x ?= y)%Q; split; intros H; try reflexivity; discriminate H.
Qed.

Lemma Qltb_nlt (x y : Q) : Qltb x y = false <-> ~ (x < y)%Q.
Proof.
  rewrite <- Qltb_lt. destruct (Qltb x y); split; intros H; try reflexivity.
  - discriminate H.
  - exfalso. apply H. reflexivity.
  - intros H'. discriminate H'.
Qed.

Lemma gt_Num (x y : Q) : gt (Num x) (Num y) = true <-> (y < x)%Q.
Proof. unfold gt, lt. apply Qltb_lt. Qed.

(** Comparing with a threshold that holds a finite number. *)
Lemma gt_finite (v : jsval) (q x : Q) :
  v = JNumber (Num q) -> (gt (Num x) (ToNumber v) = true <-> (q < x)%Q).
Proof. intros ->. apply gt_Num. Qed.

Lemma lt_finite (v : jsval) (q x : Q) :
  v = JNumber (Num q) -> (lt (Num x) (ToNumber v) = true <-> (x < q)%Q).
Proof. intros ->. apply Qltb_lt. Qed.

(** No comparison with [NaN] holds. *)
Lemma gt_NaN_r (x : number) : gt x NaN = false.
Proof. reflexivity. Qed.


(** Constructing the validator without overrides gives the defaults. *)
Lemma CrossValidator_new_defaults : CrossValidator_new no_overrides = DEFAULT_THRESHOLDS.
Proof. reflexivity. Qed.

Lemma validateDataFreshness_run th github near errs h :
  validateDataFreshness th github near errs h =
  (errs ++ stale_errors th (clock h 0%nat) github_stale_msg (github_collectionTimestamp github)
        ++ stale_errors th (clock h 0%nat) near_stale_msg (near_collectionTimestamp near),
   snd (Date_now h)).
Proof.
  unfold validateDataFreshness, bind, ret, Date_now, stale_errors, push.
  cbn [clock fst snd].
  do 2 match goal with |- context [if ?b then _ else _] => destruct b end;
    rewrite <- ?app_assoc, ?app_nil_r; reflexivity.
Qed.

Lemma validate_run th h :
  validate th h =
  (let errs :=
     drift_errors th (github_obj h) (near_obj h)
     ++ stale_errors th (clock h 0%nat) github_stale_msg
          (github_collectionTimestamp (github_obj h))
     ++ stale_errors th (clock h 0%nat) near_stale_msg
          (near_collectionTimestamp (near_obj h)) in
   {| isValid := (length errs =? 0)%nat;
      errors := errs;
      warnings :=
        validateUserEngagement th (github_obj h) (near_obj h)
          (validateActivityCorrelation th (github_obj h) (near_obj h) []);
      timestamp := clock h 1%nat;
      metadata := [("source"%string, "github"%string);
                   ("validationType"%string, "data"%string)] |},
   {| github_obj := github_obj h;
      near_obj := near_obj h;
      clock := fun n => clock h (S (S n)) |}).
Proof.
  unfold validate, bind, load_github, load_near, ret.
  cbv beta iota. rewrite validateDataFreshness_run.
  unfold Date_now. cbn [fst snd clock github_obj near_obj].
  unfold drift_errors. destruct (hasTimestampDrift _ _ _); reflexivity.
Qed.

Lemma validate_errors th github near readings :
  errors (run_validate th github near readings) =
  drift_errors th github near
  ++ stale_errors th (readings 0%nat) github_stale_msg (github_collectionTimestamp github)
  ++ stale_errors th (readings 0%nat) near_stale_msg (near_collectionTimestamp near).
Proof. unfold run_validate. rewrite validate_run. reflexivity. Qed.

Lemma validate_isValid th github near readings :
  isValid (run_validate th github near readings) =
  (length (errors (run_validate th github near readings)) =? 0)%nat.
Proof. unfold run_validate. rewrite validate_run. reflexivity. Qed.

Lemma validate_warnings th github near readings :
  warnings (run_validate th github near readings) =
  validateUserEngagement th github near (validateActivityCorrelation th github near []).
Proof. unfold run_validate. rewrite validate_run. reflexivity. Qed.

Lemma validate_metadata th github near readings :
  metadata (run_validate th github near readings) =
  [("source"%string, "github"%string); ("validationType"%string, "data"%string)].
Proof. unfold run_validate. rewrite validate_run. reflexivity. Qed.

Lemma with_code_app c l1 l2 : with_code c (l1 ++ l2) = with_code c l1 ++ with_code c l2.
Proof. unfold with_code. apply List.filter_app. Qed.

Lemma with_code_drift_errors c th github near :
  with_code c (drift_errors th github near) =
  if String.eqb "TIMESTAMP_DRIFT" c then drift_errors th github near else [].
Proof.
  unfold drift_errors, with_code, createValidationError.
  destruct (hasTimestampDrift _ _ _); cbn [List.filter code];
    destruct (String.eqb "TIMESTAMP_DRIFT" c); reflexivity.
Qed.

Lemma with_code_stale_errors c th now msg ts :
  with_code c (stale_errors th now msg ts) =
  if String.eqb "STALE_DATA" c then stale_errors th now msg ts else [].
Proof.
  unfold stale_errors, with_code, stale_error, createValidationError.
  destruct (gt _ _); cbn [List.filter code];
    destruct (String.eqb "STALE_DATA" c); reflexivity.
Qed.

Lemma hasTimestampDrift_gt th github near limit :
  maxTimeDrift th = JNumber (Num limit) ->
  (hasTimestampDrift th github near = true <->
   (limit <
    inject_Z (Z.abs (github_collectionTimestamp github
                     - near_collectionTimestamp near)))%Q).
Proof. intros H. unfold hasTimestampDrift, of_Z. apply gt_finite. exact H. Qed.

Lemma drift_errors_nil_iff th github near :
  drift_errors th github near = [] <-> hasTimestampDrift th github near = false.
Proof.
  unfold drift_errors. destruct (hasTimestampDrift th github near); split;
    intros H; try reflexivity; discriminate H.
Qed.

Lemma stale_errors_true th now msg ts :
  gt (of_Z (now - ts)) (ToNumber (maxDataAge th)) = true ->
  stale_errors th now msg ts = [stale_error th msg ts].
Proof. intros H. unfold stale_errors. rewrite H. reflexivity. Qed.

Lemma stale_errors_false th now msg ts :
  gt (of_Z (now - ts)) (ToNumber (maxDataAge th)) = false ->
  stale_errors th now msg ts = [].
Proof. intros H. unfold stale_errors. rewrite H. reflexivity. Qed.

Lemma stale_errors_nil_iff th now msg ts :
  stale_errors th now msg ts = [] <->
  gt (of_Z (now - ts)) (ToNumber (maxDataAge th)) = false.
Proof.
  unfold stale_errors. destruct (gt _ _); split; intros H;
    try reflexivity; discriminate H.
Qed.

Lemma stale_errors_stale th now msg ts age :
  maxDataAge th = JNumber (Num age) ->
  (age < inject_Z (now - ts))%Q ->
  stale_errors th now msg ts = [stale_error th msg ts].
Proof.
  intros Hth H. apply stale_errors_true. unfold of_Z.
  apply (gt_finite _ _ _ Hth). exact H.
Qed.

Lemma stale_errors_fresh th now msg ts age :
  maxDataAge th = JNumber (Num age) ->
  ~ (age < inject_Z (now - ts))%Q ->
  stale_errors th now msg ts = [].
Proof.
  intros Hth H. apply stale_errors_false. unfold of_Z.
  destruct (gt _ _) eqn:E; [|reflexivity].
  apply (gt_finite _ _ _ Hth) in E. contradiction.
Qed.

Lemma validateActivityCorrelation_app th github near ws :
  validateActivityCorrelation th github near ws =
  ws ++ low_correlation_warnings th github near.
Proof.
  unfold low_correlation_warnings, validateActivityCorrelation, push.
  destruct (lt _ _); [reflexivity | symmetry; apply app_nil_r].
Qed.

Lemma validateUserEngagement_app th github near ws :
  validateUserEngagement th github near ws =
  ws ++ user_count_warnings th github near.
Proof.
  unfold user_count_warnings, validateUserEngagement, push.
  destruct (gt _ _); [reflexivity | symmetry; apply app_nil_r].
Qed.

Lemma validate_warnings_app th github near readings :
  warnings (run_validate th github near readings) =
  low_correlation_warnings th github near ++ user_count_warnings th github near.
Proof.
  rewrite validate_warnings, validateUserEngagement_app.
  reflexivity.
Qed.

Lemma with_code_low_correlation_warnings c th github near :
  with_code c (low_correlation_warnings th github near) =
  if String.eqb "LOW_ACTIVITY_CORRELATION" c
  then low_correlation_warnings th github near else [].
Proof.
  unfold low_correlation_warnings, validateActivityCorrelation, with_code,
    push, createValidationError.
  destruct (lt _ _); cbn [app List.filter code];
    destruct (String.eqb "LOW_ACTIVITY_CORRELATION" c); reflexivity.
Qed.

Lemma with_code_user_count_warnings c th github near :
  with_code c (user_count_warnings th github near) =
  if String.eqb "USER_COUNT_DISCREPANCY" c
  then user_count_warnings th github near else [].
Proof.
  unfold user_count_warnings, validateUserEngagement, with_code, push,
    ErrorCode_USER_COUNT_DISCREPANCY.
  destruct (gt _ _); cbn [app List.filter code];
    destruct (String.eqb "USER_COUNT_DISCREPANCY" c); reflexivity.
Qed.

Lemma length_drift_errors th github near :
  (length (drift_errors th github near) <= 1)%nat.
Proof. unfold drift_errors. destruct (hasTimestampDrift _ _ _); simpl; lia. Qed.

Lemma length_stale_errors th now msg ts :
  (length (stale_errors th now msg ts) <= 1)%nat.
Proof. unfold stale_errors. destruct (gt _ _); simpl; lia. Qed.

Lemma length_low_correlation_warnings th github near :
  (length (low_correlation_warnings th github near) <= 1)%nat.
Proof.
  unfold low_correlation_warnings, validateActivityCorrelation, push.
  destruct (lt _ _); simpl; lia.
Qed.

Lemma length_user_count_warnings th github near :
  (length (user_count_warnings th github near) <= 1)%nat.
Proof.
  unfold user_count_warnings, validateUserEngagement, push.
  destruct (gt _ _); simpl; lia.
Qed.

Lemma code_drift_errors th github near e :
  List.In e (drift_errors th github near) -> code e = "TIMESTAMP_DRIFT"%string.
Proof.
  unfold drift_errors. destruct (hasTimestampDrift _ _ _); simpl.
  - intros [<- | []]. reflexivity.
  - intros [].
Qed.

Lemma code_stale_errors th now msg ts e :
  List.In e (stale_errors th now msg ts) -> e = stale_error th msg ts.
Proof.
  unfold stale_errors. destruct (gt _ _); simpl.
  - intros [<- | []]. reflexivity.
  - intros [].
Qed.

Lemma code_low_correlation_warnings th github near e :
  List.In e (low_correlation_warnings th github near) ->
  code e = "LOW_ACTIVITY_CORRELATION"%string.
Proof.
  unfold low_correlation_warnings, validateActivityCorrelation, push.
  destruct (lt _ _); simpl.
  - intros [<- | []]. reflexivity.
  - intros [].
Qed.

Lemma code_user_count_warnings th github near e :
  List.In e (user_count_warnings th github near) ->
  code e = "USER_COUNT_DISCREPANCY"%string.
Proof.
  unfold user_count_warnings, validateUserEngagement, push.
  destruct (gt _ _); simpl.
  - intros [<- | []]. reflexivity.
  - intros [].
Qed.

(** ** Verdict *)

(** C1. For every pair of input records, the result of [validate] has
    [isValid = true] if and only if its [errors] list is empty; and two
    results with the same errors have the same verdict whatever their
    warnings are. *)
Theorem validate_isValid_iff_no_errors :
  (forall th github near readings,
      isValid (run_validate th github near readings) = true <->
      errors (run_validate th github near readings) = [])
  /\
  (forall th github near readings th' github' near' readings',
      errors (run_validate th github near readings) =
      errors (run_validate th' github' near' readings') ->
      isValid (run_validate th github near readings) =
      isValid (run_validate th' github' near' readings')).
Proof.
  split.
  - intros th github near readings. rewrite validate_isValid.
    destruct (errors _) as [|e l]; simpl; split; intros H;
      try reflexivity; discriminate H.
  - intros th github near readings th' github' near' readings' H.
    rewrite !validate_isValid, H. reflexivity.
Qed.

(** Idle records and active records, both fresh: no errors on either side,
    warnings on one side only, the same verdict. *)
Lemma validate_isValid_iff_no_errors_witness :
  warnings (run_validate DEFAULT_THRESHOLDS
              (Samples.idle_github 1000) (Samples.busy_near 1000)
              (Samples.clock_from 2000)) <> []
  /\ warnings (run_validate DEFAULT_THRESHOLDS
                 (Samples.idle_github 1000) (Samples.idle_near 1000)
                 (Samples.clock_from 2000)) = []
  /\ isValid (run_validate DEFAULT_THRESHOLDS
                (Samples.idle_github 1000) (Samples.busy_near 1000)
                (Samples.clock_from 2000)) =
     isValid (run_validate DEFAULT_THRESHOLDS
                (Samples.idle_github 1000) (Samples.idle_near 1000)
                (Samples.clock_from 2000)).
Proof.
  split; [vm_compute; discriminate|].
  split; [vm_compute; reflexivity|].
  apply (proj2 validate_isValid_iff_no_errors).
  vm_compute. reflexivity.
Defined.

(** ** Timestamp drift *)

(** C2, as the code has it.  A TIMESTAMP_DRIFT error is emitted if and only
    if the distance between the two collection timestamps exceeds
    [maxTimeDrift], in the language's comparison and, for a threshold that
    holds a number, in the rationals; when emitted there is exactly one, and
    its context gives that distance under [drift].  Records with equal
    collection timestamps produce none when [maxTimeDrift] is not negative.
    A threshold that holds [undefined] or [NaN] gives no error at all. *)
Theorem timestamp_drift_error :
  forall th github near readings,
    let drift :=
      Z.abs (github_collectionTimestamp github - near_collectionTimestamp near) in
    let found :=
      with_code "TIMESTAMP_DRIFT" (errors (run_validate th github near readings)) in
    (found <> [] <-> gt (of_Z drift) (ToNumber (maxTimeDrift th)) = true)
    /\ (forall limit : Q,
           maxTimeDrift th = JNumber (Num limit) ->
           (found <> [] <-> (limit < inject_Z drift)%Q))
    /\ (found <> [] ->
        exists e, found = [e]
                  /\ code e = "TIMESTAMP_DRIFT"%string
                  /\ context e = [("drift"%string, of_Z drift)]
                  /\ context_get "drift" (context e) = Some (of_Z drift))
    /\ (forall limit : Q,
           maxTimeDrift th = JNumber (Num limit) ->
           (0 <= limit)%Q ->
           github_collectionTimestamp github = near_collectionTimestamp near ->
           found = [])
    /\ (ToNumber (maxTimeDrift th) = NaN -> found = []).
Proof.
  intros th github near readings drift found.
  assert (Hfound : found = drift_errors th github near).
  { unfold found. rewrite validate_errors, !with_code_app,
      with_code_drift_errors, !with_code_stale_errors.
    simpl. rewrite !app_nil_r. reflexivity. }
  assert (Hgen : found <> [] <-> hasTimestampDrift th github near = true).
  { rewrite Hfound. unfold drift_errors.
    destruct (hasTimestampDrift th github near).
    - split; [reflexivity | discriminate].
    - split; [intros H; exfalso; apply H; reflexivity | discriminate]. }
  assert (Hfin : forall limit : Q,
             maxTimeDrift th = JNumber (Num limit) ->
             (found <> [] <-> (limit < inject_Z drift)%Q)).
  { intros limit Hth. rewrite Hgen. apply hasTimestampDrift_gt. exact Hth. }
  split; [exact Hgen|]. split; [exact Hfin|]. split; [|split].
  - rewrite Hfound. unfold drift_errors.
    destruct (hasTimestampDrift th github near).
    + intros _. eexists. split; [reflexivity|]. repeat split; reflexivity.
    + intros H. exfalso. apply H. reflexivity.
  - intros limit Hth Hpos Heq.
    destruct found as [|e l] eqn:E; [reflexivity|]. exfalso.
    assert (Hne : e :: l <> []) by discriminate.
    apply (Hfin limit Hth) in Hne.
    unfold drift in Hne. rewrite Heq, Z.sub_diag in Hne. simpl in Hne.
    exact (Qlt_not_le _ _ Hne Hpos).
  - intros Hoff. destruct found as [|e l] eqn:E; [reflexivity|]. exfalso.
    assert (Hne : e :: l <> []) by discriminate.
    apply Hgen in Hne. unfold hasTimestampDrift in Hne.
    rewrite Hoff, gt_NaN_r in Hne. discriminate Hne.
Qed.

(** Equal timestamps under the default six hours: no drift error. *)
Lemma timestamp_drift_error_witness :
  with_code "TIMESTAMP_DRIFT"
    (errors (run_validate DEFAULT_THRESHOLDS
               (Samples.github_at 1000) (Samples.near_at 1000)
               (Samples.clock_from 2000))) = [].
Proof.
  refine (proj1 (proj2 (proj2 (proj2
            (timestamp_drift_error DEFAULT_THRESHOLDS
               (Samples.github_at 1000) (Samples.near_at 1000)
               (Samples.clock_from 2000)))))
            (inject_Z (6 * 60 * 60 * 1000)) _ _ _).
  - reflexivity.
  - vm_compute. discriminate.
  - reflexivity.
Defined.

(** C2 as stated fails: with a negative [maxTimeDrift], records with equal
    collection timestamps produce a TIMESTAMP_DRIFT error, since the distance
    0 exceeds the threshold. *)
Lemma equal_timestamps_drift_with_negative_threshold :
  github_collectionTimestamp (Samples.github_at 1000) =
  near_collectionTimestamp (Samples.near_at 1000)
  /\ with_code "TIMESTAMP_DRIFT"
       (errors (run_validate (Samples.with_maxTimeDrift (-1))
                  (Samples.github_at 1000) (Samples.near_at 1000)
                  (Samples.clock_from 2000)))
     = [createValidationError "TIMESTAMP_DRIFT"
          "Significant time drift between metrics" [("drift"%string, of_Z 0)]].
Proof. split; vm_compute; reflexivity. Qed.

(** Scenario of the specification: seven hours apart under the default six. *)
Example drift_seven_hours :
  with_code "TIMESTAMP_DRIFT"
    (errors (run_validate DEFAULT_THRESHOLDS
               (Samples.github_at 0) (Samples.near_at (7 * Samples.hour))
               (Samples.clock_from 0)))
  = [createValidationError "TIMESTAMP_DRIFT"
       "Significant time drift between metrics" [("drift"%string, of_Z 25200000)]].
Proof. vm_compute. reflexivity. Qed.

(** ** Data freshness *)

Lemma stale_error_msg_inj th msg msg' ts ts' :
  stale_error th msg ts = stale_error th msg' ts' -> msg = msg'.
Proof. intros H. injection H. intros _ Hmsg. exact Hmsg. Qed.

Lemma in_stale_errors th now msg ts e :
  List.In e (stale_errors th now msg ts) <->
  e = stale_error th msg ts
  /\ gt (of_Z (now - ts)) (ToNumber (maxDataAge th)) = true.
Proof.
  unfold stale_errors. destruct (gt _ _); simpl.
  - split.
    + intros [<- | []]. split; reflexivity.
    + intros [-> _]. left. reflexivity.
  - split; [intros [] |]. intros [_ H]. discriminate H.
Qed.

(** C5. Freshness is evaluated per record against the reading [now] that
    [validate] takes from the clock: the STALE_DATA error of a record, with
    context [{timestamp, maxAge}], is among the errors if and only if
    [now - collectionTimestamp > maxDataAge], in the language's comparison
    and, for a threshold that holds a number, in the rationals; every
    STALE_DATA error is one of these two; when both records are stale
    exactly two are present, the code-activity record's first; and the
    errors are the TIMESTAMP_DRIFT ones followed by the STALE_DATA ones. *)
Theorem stale_data_errors :
  forall th github near readings,
    let now := readings 0%nat in
    let r := run_validate th github near readings in
    let tsA := github_collectionTimestamp github in
    let tsB := near_collectionTimestamp near in
    let eA := {| code := "STALE_DATA"; message := "GitHub data is too old";
                 context := [("timestamp"%string, of_Z tsA);
                             ("maxAge"%string, ToNumber (maxDataAge th))] |} in
    let eB := {| code := "STALE_DATA"; message := "NEAR data is too old";
                 context := [("timestamp"%string, of_Z tsB);
                             ("maxAge"%string, ToNumber (maxDataAge th))] |} in
    (List.In eA (errors r) <->
     gt (of_Z (now - tsA)) (ToNumber (maxDataAge th)) = true)
    /\ (List.In eB (errors r) <->
        gt (of_Z (now - tsB)) (ToNumber (maxDataAge th)) = true)
    /\ (forall age : Q,
           maxDataAge th = JNumber (Num age) ->
           (List.In eA (errors r) <-> (age < inject_Z (now - tsA))%Q)
           /\ (List.In eB (errors r) <-> (age < inject_Z (now - tsB))%Q)
           /\ context_get "maxAge" (context eA) = Some (Num age)
           /\ context_get "maxAge" (context eB) = Some (Num age)
           /\ ((age < inject_Z (now - tsA))%Q ->
               (age < inject_Z (now - tsB))%Q ->
               with_code "STALE_DATA" (errors r) = [eA; eB]))
    /\ (forall e, List.In e (with_code "STALE_DATA" (errors r)) -> e = eA \/ e = eB)
    /\ errors r =
       with_code "TIMESTAMP_DRIFT" (errors r) ++ with_code "STALE_DATA" (errors r).
Proof.
  intros th github near readings now r tsA tsB eA eB.
  assert (HeA : eA = stale_error th github_stale_msg tsA) by reflexivity.
  assert (HeB : eB = stale_error th near_stale_msg tsB) by reflexivity.
  assert (Herr : errors r =
                 drift_errors th github near
                 ++ stale_errors th now github_stale_msg tsA
                 ++ stale_errors th now near_stale_msg tsB)
    by apply validate_errors.
  assert (Hstale : with_code "STALE_DATA" (errors r) =
                   stale_errors th now github_stale_msg tsA
                   ++ stale_errors th now near_stale_msg tsB).
  { rewrite Herr, !with_code_app, with_code_drift_errors, !with_code_stale_errors.
    reflexivity. }
  assert (Hdrift : with_code "TIMESTAMP_DRIFT" (errors r) = drift_errors th github near).
  { rewrite Herr, !with_code_app, with_code_drift_errors, !with_code_stale_errors.
    simpl. rewrite !app_nil_r. reflexivity. }
  assert (HA : List.In eA (errors r) <->
               gt (of_Z (now - tsA)) (ToNumber (maxDataAge th)) = true).
  { rewrite Herr, !in_app_iff, !in_stale_errors. split.
    - intros [H | [[_ H] | [H _]]].
      + apply code_drift_errors in H. discriminate H.
      + exact H.
      + rewrite HeA in H. apply stale_error_msg_inj in H. discriminate H.
    - intros H. right. left. split; [exact HeA | exact H]. }
  assert (HB : List.In eB (errors r) <->
               gt (of_Z (now - tsB)) (ToNumber (maxDataAge th)) = true).
  { rewrite Herr, !in_app_iff, !in_stale_errors. split.
    - intros [H | [[H _] | [_ H]]].
      + apply code_drift_errors in H. discriminate H.
      + rewrite HeB in H. apply stale_error_msg_inj in H. discriminate H.
      + exact H.
    - intros H. right. right. split; [exact HeB | exact H]. }
  split; [exact HA|]. split; [exact HB|]. split; [|split].
  - intros age Hth.
    split; [rewrite HA; apply (gt_finite _ _ _ Hth)|].
    split; [rewrite HB; apply (gt_finite _ _ _ Hth)|].
    split; [unfold eA; cbn [context context_get String.eqb Ascii.eqb Bool.eqb];
            rewrite Hth; reflexivity|].
    split; [unfold eB; cbn [context context_get String.eqb Ascii.eqb Bool.eqb];
            rewrite Hth; reflexivity|].
    intros SA SB. rewrite Hstale.
    rewrite (stale_errors_stale _ _ _ _ _ Hth SA),
      (stale_errors_stale _ _ _ _ _ Hth SB).
    reflexivity.
  - intros e. rewrite Hstale, in_app_iff, !in_stale_errors.
    intros [[-> _] | [-> _]]; [left | right]; reflexivity.
  - rewrite Hdrift, Hstale. exact Herr.
Qed.

(** Both records two days old under the default 24 hours: two STALE_DATA
    errors, the code-activity record's first. *)
Lemma stale_data_errors_witness :
  with_code "STALE_DATA"
    (errors (run_validate DEFAULT_THRESHOLDS
               (Samples.github_at 1000) (Samples.near_at 2000)
               (Samples.clock_from (48 * Samples.hour))))
  = [ {| code := "STALE_DATA"; message := "GitHub data is too old";
         context := [("timestamp"%string, of_Z 1000);
                     ("maxAge"%string, ToNumber (maxDataAge DEFAULT_THRESHOLDS))] |};
      {| code := "STALE_DATA"; message := "NEAR data is too old";
         context := [("timestamp"%string, of_Z 2000);
                     ("maxAge"%string, ToNumber (maxDataAge DEFAULT_THRESHOLDS))] |} ].
Proof.
  refine (proj2 (proj2 (proj2 (proj2
            (proj1 (proj2 (proj2
               (stale_data_errors DEFAULT_THRESHOLDS
                  (Samples.github_at 1000) (Samples.near_at 2000)
                  (Samples.clock_from (48 * Samples.hour)))))
               (inject_Z (24 * 60 * 60 * 1000)) eq_refl)))) _ _).
  - vm_compute. reflexivity.
  - vm_compute. reflexivity.
Defined.
(** ** Shape of the result *)

(** C10. The errors list has at most three entries: at most one
    TIMESTAMP_DRIFT and at most two STALE_DATA; the warnings list has at most
    two: at most one LOW_ACTIVITY_CORRELATION and at most one
    USER_COUNT_DISCREPANCY; no other code appears in either list. *)
Theorem validate_findings_bounded :
  forall th github near readings,
    let r := run_validate th github near readings in
    (length (errors r) <= 3)%nat
    /\ (length (with_code "TIMESTAMP_DRIFT" (errors r)) <= 1)%nat
    /\ (length (with_code "STALE_DATA" (errors r)) <= 2)%nat
    /\ (length (warnings r) <= 2)%nat
    /\ (length (with_code "LOW_ACTIVITY_CORRELATION" (warnings r)) <= 1)%nat
    /\ (length (with_code "USER_COUNT_DISCREPANCY" (warnings r)) <= 1)%nat
    /\ Forall (fun e => code e = "TIMESTAMP_DRIFT"%string
                        \/ code e = "STALE_DATA"%string) (errors r)
    /\ Forall (fun w => code w = "LOW_ACTIVITY_CORRELATION"%string
                        \/ code w = "USER_COUNT_DISCREPANCY"%string) (warnings r).
Proof.
  intros th github near readings r. unfold r.
  rewrite validate_errors, validate_warnings_app.
  rewrite !with_code_app, !with_code_drift_errors, !with_code_stale_errors,
    !with_code_low_correlation_warnings, !with_code_user_count_warnings.
  cbn [String.eqb Ascii.eqb Bool.eqb]. cbn [app].
  rewrite ?app_nil_r, !length_app.
  pose proof (length_drift_errors th github near).
  pose proof (length_stale_errors th (readings 0%nat) github_stale_msg
                (github_collectionTimestamp github)).
  pose proof (length_stale_errors th (readings 0%nat) near_stale_msg
                (near_collectionTimestamp near)).
  pose proof (length_low_correlation_warnings th github near).
  pose proof (length_user_count_warnings th github near).
  repeat split; try lia; try assumption.
  - rewrite !Forall_app. repeat split; apply List.Forall_forall; intros e He.
    + left. eapply code_drift_errors; eassumption.
    + right. apply code_stale_errors in He. rewrite He. reflexivity.
    + right. apply code_stale_errors in He. rewrite He. reflexivity.
  - rewrite Forall_app. split; apply List.Forall_forall; intros e He.
    + left. eapply code_low_correlation_warnings; eassumption.
    + right. eapply code_user_count_warnings; eassumption.
Qed.

(** ** Activity correlation *)

Lemma githubActivity_Num github c m i :
  commits_count github = JNumber (Num c) ->
  pullRequests_merged github = JNumber (Num m) ->
  issues_closed github = JNumber (Num i) ->
  githubActivity github = Num (fdiv (fadd (fadd c m) i) 3).
Proof.
  intros Hc Hm Hi. unfold githubActivity, js_add. rewrite Hc, Hm, Hi.
  reflexivity.
Qed.

Lemma nearActivity_Num near t k :
  transactions_count near = JNumber (Num t) ->
  contract_calls near = JNumber (Num k) ->
  nearActivity near = Num (fdiv (fadd t k) 2).
Proof.
  intros Ht Hk. unfold nearActivity, js_add. rewrite Ht, Hk.
  reflexivity.
Qed.

Lemma calculateActivityCorrelation_Num github near a b :
  githubActivity github = Num a ->
  nearActivity near = Num b ->
  calculateActivityCorrelation github near =
  if Qeq_bool (Qmax a b) 0 then Num 1 else Num (fdiv (Qmin a b) (Qmax a b)).
Proof.
  intros Ha Hb. unfold calculateActivityCorrelation. rewrite Ha, Hb.
  cbn [max min strict_eq div].
  destruct (Qeq_bool (Qmax a b) 0); reflexivity.
Qed.

(** The division by [maxActivity] is reached with a divisor that is not 0. *)
Lemma calculateActivityCorrelation_divisor github near :
  strict_eq (max (githubActivity github) (nearActivity near)) (Num 0) = false ->
  max (githubActivity github) (nearActivity near) = NaN
  \/ exists q, max (githubActivity github) (nearActivity near) = Num q /\ ~ (q == 0)%Q.
Proof.
  destruct (max _ _) as [q|]; [|left; reflexivity].
  intros H. right. exists q. split; [reflexivity|].
  intros Hq. apply Qeq_bool_iff in Hq. simpl in H. congruence.
Qed.

Lemma ratio_in_unit_interval (a b : Q) :
  (0 <= a)%Q -> (0 <= b)%Q -> ~ (Qmax a b == 0)%Q ->
  (0 <= fdiv (Qmin a b) (Qmax a b) <= 1)%Q.
Proof.
  intros Ha Hb Hne.
  assert (Hmax : (0 < Qmax a b)%Q).
  { pose proof (Q.le_max_l a b) as Hl.
    destruct (Qlt_le_dec 0 (Qmax a b)) as [H | H]; [exact H|].
    exfalso. apply Hne. apply Qle_antisym; [exact H|].
    eapply Qle_trans; [exact Ha | exact Hl]. }
  assert (Hmin : (0 <= Qmin a b)%Q) by (apply Q.min_glb; assumption).
  assert (Hle : (Qmin a b <= Qmax a b)%Q).
  { eapply Qle_trans; [apply Q.le_min_l | apply Q.le_max_l]. }
  unfold fdiv. split.
  - apply round64_nonneg.
    apply Qle_shift_div_l; [exact Hmax|]. rewrite Qmult_0_l. exact Hmin.
  - rewrite <- round64_1. apply round64_mono.
    apply Qle_shift_div_r; [exact Hmax|]. rewrite Qmult_1_l. exact Hle.
Qed.

Lemma fadd_nonneg (x y : Q) : (0 <= x)%Q -> (0 <= y)%Q -> (0 <= fadd x y)%Q.
Proof. intros Hx Hy. unfold fadd. apply round64_nonneg. lra. Qed.

Lemma fdiv_nonneg (x y : Q) : (0 <= x)%Q -> (0 < y)%Q -> (0 <= fdiv x y)%Q.
Proof.
  intros Hx Hy. unfold fdiv. apply round64_nonneg.
  apply Qle_shift_div_l; [exact Hy|]. rewrite Qmult_0_l. exact Hx.
Qed.

Lemma low_correlation_warnings_Num th github near q :
  calculateActivityCorrelation github near = Num q ->
  low_correlation_warnings th github near =
  if lt (Num q) (ToNumber (minActivityCorrelation th)) then
    [ {| code := "LOW_ACTIVITY_CORRELATION";
         message := "Low correlation between GitHub and NEAR activity";
         context := [("correlation"%string, Num q);
                     ("threshold"%string,
                      ToNumber (minActivityCorrelation th))] |} ]
  else [].
Proof.
  intros Hq. unfold low_correlation_warnings, validateActivityCorrelation.
  rewrite Hq. destruct (lt _ _); reflexivity.
Qed.

Lemma with_code_low_warnings th github near readings :
  with_code "LOW_ACTIVITY_CORRELATION" (warnings (run_validate th github near readings)) =
  low_correlation_warnings th github near.
Proof.
  rewrite validate_warnings_app, with_code_app,
    with_code_low_correlation_warnings, with_code_user_count_warnings.
  simpl. apply app_nil_r.
Qed.

Lemma with_code_user_warnings th github near readings :
  with_code "USER_COUNT_DISCREPANCY" (warnings (run_validate th github near readings)) =
  user_count_warnings th github near.
Proof.
  rewrite validate_warnings_app, with_code_app,
    with_code_low_correlation_warnings, with_code_user_count_warnings.
  reflexivity.
Qed.

Lemma low_correlation_warnings_nil th github near :
  low_correlation_warnings th github near = [] <->
  lt (calculateActivityCorrelation github near)
     (ToNumber (minActivityCorrelation th)) = false.
Proof.
  unfold low_correlation_warnings, validateActivityCorrelation, push.
  destruct (lt _ _); simpl; split; intros H; try reflexivity; discriminate H.
Qed.

Lemma low_correlation_warnings_not_nil th github near :
  low_correlation_warnings th github near <> [] <->
  lt (calculateActivityCorrelation github near)
     (ToNumber (minActivityCorrelation th)) = true.
Proof.
  rewrite low_correlation_warnings_nil. destruct (lt _ _).
  - split; [reflexivity | discriminate].
  - split; [intros H; exfalso; apply H; reflexivity | discriminate].
Qed.

(** C3. A LOW_ACTIVITY_CORRELATION warning is emitted if and only if the
    computed correlation is below [minActivityCorrelation], and then there is
    one, with context [{correlation, threshold}].  With finite counters,
    [activityA = (commits + mergedPRs + closedIssues) / 3] and
    [activityB = (transactions + contractCalls) / 2] in the arithmetic of the
    language, the correlation is a number; it equals [min / max] of the two,
    again in that arithmetic, whenever their max is positive; and it lies in
    [0, 1] when the counters are not negative. *)
Theorem activity_correlation_warning :
  forall th github near readings,
    let found :=
      with_code "LOW_ACTIVITY_CORRELATION"
        (warnings (run_validate th github near readings)) in
    (found <> [] <->
     lt (calculateActivityCorrelation github near)
        (ToNumber (minActivityCorrelation th)) = true)
    /\ (found <> [] ->
        found =
        [ {| code := "LOW_ACTIVITY_CORRELATION";
             message := "Low correlation between GitHub and NEAR activity";
             context := [("correlation"%string,
                          calculateActivityCorrelation github near);
                         ("threshold"%string,
                          ToNumber (minActivityCorrelation th))] |} ])
    /\ (forall c m i t k : Q,
          commits_count github = JNumber (Num c) ->
          pullRequests_merged github = JNumber (Num m) ->
          issues_closed github = JNumber (Num i) ->
          transactions_count near = JNumber (Num t) ->
          contract_calls near = JNumber (Num k) ->
          let activityA := fdiv (fadd (fadd c m) i) 3 in
          let activityB := fdiv (fadd t k) 2 in
          exists correlation : Q,
            calculateActivityCorrelation github near = Num correlation
            /\ ((0 < Qmax activityA activityB)%Q ->
                correlation =
                fdiv (Qmin activityA activityB) (Qmax activityA activityB))
            /\ ((0 <= c)%Q -> (0 <= m)%Q -> (0 <= i)%Q ->
                (0 <= t)%Q -> (0 <= k)%Q ->
                (0 <= correlation <= 1)%Q)
            /\ (forall limit : Q,
                   minActivityCorrelation th = JNumber (Num limit) ->
                   (found <> [] <-> (correlation < limit)%Q))).
Proof.
  intros th github near readings found.
  assert (Hfound : found = low_correlation_warnings th github near)
    by apply with_code_low_warnings.
  assert (Hiff : found <> [] <->
                 lt (calculateActivityCorrelation github near)
                    (ToNumber (minActivityCorrelation th)) = true).
  { rewrite Hfound. apply low_correlation_warnings_not_nil. }
  split; [exact Hiff|]. split.
  - rewrite Hfound. unfold low_correlation_warnings, validateActivityCorrelation.
    destruct (lt _ _); simpl; intros H; [reflexivity|].
    exfalso. apply H. reflexivity.
  - intros c m i t k Hc Hm Hi Ht Hk activityA activityB.
    pose proof (githubActivity_Num _ _ _ _ Hc Hm Hi) as HA. fold activityA in HA.
    pose proof (nearActivity_Num _ _ _ Ht Hk) as HB. fold activityB in HB.
    pose proof (calculateActivityCorrelation_Num _ _ _ _ HA HB) as Hcorr.
    assert (Hlt : forall q, calculateActivityCorrelation github near = Num q ->
              forall limit : Q,
                minActivityCorrelation th = JNumber (Num limit) ->
                (found <> [] <-> (q < limit)%Q)).
    { intros q Hq limit Hth. rewrite Hiff, Hq. apply (lt_finite _ _ _ Hth). }
    destruct (Qeq_bool (Qmax activityA activityB) 0) eqn:E.
    + exists 1%Q. split; [exact Hcorr|]. split; [|split].
      * intros Hpos. exfalso. apply Qeq_bool_iff in E. rewrite E in Hpos.
        exact (Qlt_irrefl 0 Hpos).
      * intros _ _ _ _ _. split; [discriminate | apply Qle_refl].
      * apply Hlt. exact Hcorr.
    + exists (fdiv (Qmin activityA activityB) (Qmax activityA activityB)).
      split; [exact Hcorr|]. split; [|split].
      * intros _. reflexivity.
      * intros H0c H0m H0i H0t H0k. apply ratio_in_unit_interval.
        -- unfold activityA. apply fdiv_nonneg; [|reflexivity].
           apply fadd_nonneg; [apply fadd_nonneg|]; assumption.
        -- unfold activityB. apply fdiv_nonneg; [|reflexivity].
           apply fadd_nonneg; assumption.
        -- intros H. apply Qeq_bool_iff in H. congruence.
      * apply Hlt. exact Hcorr.
Qed.

(** Twelve code events against eight ledger events: both activity levels are
    4 and the correlation is in range. *)
Lemma activity_correlation_warning_witness :
  exists correlation : Q,
    calculateActivityCorrelation (Samples.github_at 1000) (Samples.near_at 1000)
    = Num correlation
    /\ (0 <= correlation <= 1)%Q.
Proof.
  destruct (proj2 (proj2
              (activity_correlation_warning DEFAULT_THRESHOLDS
                 (Samples.github_at 1000) (Samples.near_at 1000)
                 (Samples.clock_from 2000)))
              (inject_Z 9) (inject_Z 2) (inject_Z 1) (inject_Z 5) (inject_Z 3)
              eq_refl eq_refl eq_refl eq_refl eq_refl)
    as (q & Hq & _ & Hrange & _).
  exists q. split; [exact Hq|].
  apply Hrange; vm_compute; discriminate.
Defined.

(** Scenario of the specification: nine commits against an idle ledger. *)
Example correlation_idle_ledger :
  with_code "LOW_ACTIVITY_CORRELATION"
    (warnings (run_validate DEFAULT_THRESHOLDS
                 (mkGitHubMetrics (Samples.counter 9) [] (Samples.counter 0) []
                    (Samples.counter 0) [] 1000)
                 (Samples.idle_near 1000) (Samples.clock_from 2000)))
  <> [].
Proof. vm_compute. discriminate. Qed.

(** Rounding decides: five commits against three transactions give the
    activity levels 5/3 and 3/2 rounded, whose quotient is the binary64
    value just below 0.9, so that a threshold of 0.9 gives the warning. *)
Example correlation_five_against_three :
  strict_eq
    (calculateActivityCorrelation
       (mkGitHubMetrics (Samples.counter 5) [] (Samples.counter 0) []
          (Samples.counter 0) [] 1000)
       (mkNEARMetrics (Samples.counter 3) [] (Samples.counter 0) [] 1000))
    (Num (2026619832316723 # 2251799813685248)) = true
  /\ strict_eq (literal (9 # 10)) (Num (8106479329266893 # 9007199254740992)) = true
  /\ ((2026619832316723 # 2251799813685248) < (8106479329266893 # 9007199254740992))%Q
  /\ with_code "LOW_ACTIVITY_CORRELATION"
       (warnings (run_validate
                    (CrossValidator_new
                       (mkPartial None (Some (JNumber (literal (9 # 10)))) None None))
                    (mkGitHubMetrics (Samples.counter 5) [] (Samples.counter 0) []
                       (Samples.counter 0) [] 1000)
                    (mkNEARMetrics (Samples.counter 3) [] (Samples.counter 0) [] 1000)
                    (Samples.clock_from 2000)))
     <> [].
Proof.
  split; [vm_compute; reflexivity|]. split; [vm_compute; reflexivity|].
  split; [reflexivity|]. vm_compute. discriminate.
Qed.

(** C6, as the code has it.  When both activity aggregates are 0 the
    correlation is 1, and a LOW_ACTIVITY_CORRELATION warning is emitted if and
    only if [minActivityCorrelation] is above 1: none is emitted for any
    threshold of at most 1, nor for one that holds [undefined] or [NaN]. *)
Theorem idle_sources_correlation :
  forall th github near readings (a b : Q),
    githubActivity github = Num a ->
    nearActivity near = Num b ->
    (a == 0)%Q -> (b == 0)%Q ->
    let found :=
      with_code "LOW_ACTIVITY_CORRELATION"
        (warnings (run_validate th github near readings)) in
    calculateActivityCorrelation github near = Num 1
    /\ (found <> [] <-> lt (Num 1) (ToNumber (minActivityCorrelation th)) = true)
    /\ (forall limit : Q,
           minActivityCorrelation th = JNumber (Num limit) ->
           (found <> [] <-> (1 < limit)%Q)
           /\ ((limit <= 1)%Q -> found = []))
    /\ (ToNumber (minActivityCorrelation th) = NaN -> found = []).
Proof.
  intros th github near readings a b HA HB Ha Hb found.
  assert (Hcorr : calculateActivityCorrelation github near = Num 1).
  { rewrite (calculateActivityCorrelation_Num _ _ _ _ HA HB).
    assert (Hmax : (Qmax a b == 0)%Q).
    { destruct (Q.max_spec a b) as [[_ ->] | [_ ->]]; assumption. }
    apply Qeq_bool_iff in Hmax. rewrite Hmax. reflexivity. }
  assert (Hgen : found <> [] <->
                 lt (Num 1) (ToNumber (minActivityCorrelation th)) = true).
  { unfold found. rewrite with_code_low_warnings,
      low_correlation_warnings_not_nil, Hcorr. reflexivity. }
  split; [exact Hcorr|]. split; [exact Hgen|]. split.
  - intros limit Hth.
    assert (Hfin : found <> [] <-> (1 < limit)%Q).
    { rewrite Hgen. apply (lt_finite _ _ _ Hth). }
    split; [exact Hfin|]. intros Hle.
    destruct found as [|w ws]; [reflexivity|]. exfalso.
    assert (Hne : w :: ws <> []) by discriminate.
    apply Hfin in Hne. exact (Qlt_not_le _ _ Hne Hle).
  - intros Hoff. destruct found as [|w ws]; [reflexivity|]. exfalso.
    assert (Hne : w :: ws <> []) by discriminate.
    apply Hgen in Hne. rewrite Hoff in Hne. discriminate Hne.
Qed.

(** Two idle records under the default threshold 0.3: correlation 1, no
    warning. *)
Lemma idle_sources_correlation_witness :
  calculateActivityCorrelation (Samples.idle_github 1000) (Samples.idle_near 1000) = Num 1
  /\ with_code "LOW_ACTIVITY_CORRELATION"
       (warnings (run_validate DEFAULT_THRESHOLDS
                    (Samples.idle_github 1000) (Samples.idle_near 1000)
                    (Samples.clock_from 2000))) = [].
Proof.
  pose proof (idle_sources_correlation DEFAULT_THRESHOLDS
                (Samples.idle_github 1000) (Samples.idle_near 1000)
                (Samples.clock_from 2000) 0%Q 0%Q eq_refl eq_refl eq_refl eq_refl)
    as H.
  split; [exact (proj1 H)|].
  apply (proj2 (proj1 (proj2 (proj2 H)) (round64 (3 # 10)) eq_refl)).
  vm_compute. discriminate.
Defined.

(** C6 as stated fails: with [minActivityCorrelation] set to 2, two idle
    records have correlation 1, which is below the threshold, and the
    LOW_ACTIVITY_CORRELATION warning is emitted. *)
Lemma idle_sources_warning_with_threshold_above_one :
  githubActivity (Samples.idle_github 1000) = Num 0
  /\ nearActivity (Samples.idle_near 1000) = Num 0
  /\ calculateActivityCorrelation (Samples.idle_github 1000) (Samples.idle_near 1000)
     = Num 1
  /\ with_code "LOW_ACTIVITY_CORRELATION"
       (warnings (run_validate (Samples.with_minActivityCorrelation 2)
                    (Samples.idle_github 1000) (Samples.idle_near 1000)
                    (Samples.clock_from 2000)))
     = [ {| code := "LOW_ACTIVITY_CORRELATION";
            message := "Low correlation between GitHub and NEAR activity";
            context := [("correlation"%string, Num 1);
                        ("threshold"%string, Num 2)] |} ].
Proof. repeat split. Qed.
(** ** User engagement *)

Lemma githubUsers_usersA github : githubUsers github = usersA github.
Proof.
  unfold githubUsers, usersA. rewrite !list_to_set_app_L.
  apply (assoc_L (∪)).
Qed.

Lemma nearUsers_usersB near : nearUsers near = usersB near.
Proof. unfold nearUsers, usersB. apply list_to_set_app_L. Qed.

Lemma user_count_warnings_gt th github near :
  user_count_warnings th github near <> [] <->
  gt (of_Z (userDiff github near)) (maxDiff th github near) = true.
Proof.
  unfold user_count_warnings, validateUserEngagement, push.
  destruct (gt _ _); simpl.
  - split; [reflexivity | discriminate].
  - split; [intros H; exfalso; apply H; reflexivity | discriminate].
Qed.

Lemma maxDiff_finite th github near ratio :
  maxUserDiffRatio th = JNumber (Num ratio) ->
  maxDiff th github near =
  Num (fmul (inject_Z (Z.max (set_size (githubUsers github))
                             (set_size (nearUsers near)))) ratio).
Proof. intros H. unfold maxDiff. rewrite H. reflexivity. Qed.

(** C4. With [usersA] the deduplicated union of commit authors, PR authors
    and issue participants and [usersB] that of transaction senders and
    contract callers, a USER_COUNT_DISCREPANCY warning is emitted if and only
    if [|size usersA - size usersB| > max (size usersA) (size usersB) *
    maxUserDiffRatio], the product being the language's, rounded to
    binary64; there is at most one; and none is emitted when both unions are
    empty, whatever the ratio holds. *)
Theorem user_count_discrepancy_warning :
  forall th github near readings,
    let sizeA := Z.of_nat (size (usersA github)) in
    let sizeB := Z.of_nat (size (usersB near)) in
    let found :=
      with_code "USER_COUNT_DISCREPANCY"
        (warnings (run_validate th github near readings)) in
    (found <> [] <->
     gt (of_Z (Z.abs (sizeA - sizeB)))
        (mul (of_Z (Z.max sizeA sizeB)) (ToNumber (maxUserDiffRatio th))) = true)
    /\ (forall ratio : Q,
           maxUserDiffRatio th = JNumber (Num ratio) ->
           (found <> [] <->
            (fmul (inject_Z (Z.max sizeA sizeB)) ratio
             < inject_Z (Z.abs (sizeA - sizeB)))%Q))
    /\ (length found <= 1)%nat
    /\ (usersA github = ∅ -> usersB near = ∅ -> found = []).
Proof.
  intros th github near readings sizeA sizeB found.
  assert (Hfound : found = user_count_warnings th github near)
    by apply with_code_user_warnings.
  assert (Hiff : found <> [] <->
                 gt (of_Z (Z.abs (sizeA - sizeB)))
                    (mul (of_Z (Z.max sizeA sizeB))
                         (ToNumber (maxUserDiffRatio th))) = true).
  { rewrite Hfound, user_count_warnings_gt.
    unfold maxDiff, userDiff, set_size.
    rewrite githubUsers_usersA, nearUsers_usersB. reflexivity. }
  split; [exact Hiff|]. split; [|split].
  - intros ratio Hth. rewrite Hiff, Hth. apply gt_Num.
  - rewrite Hfound. apply length_user_count_warnings.
  - intros HA HB. destruct found as [|w ws] eqn:E; [reflexivity|].
    exfalso. assert (Hne : w :: ws <> []) by discriminate.
    apply Hiff in Hne. unfold sizeA, sizeB in Hne.
    rewrite HA, HB, size_empty in Hne. simpl Z.of_nat in Hne.
    destruct (ToNumber (maxUserDiffRatio th)) as [ratio|];
      [|discriminate Hne].
    apply gt_Num in Hne. unfold fmul in Hne.
    match type of Hne with
    | (round64 ?x < _)%Q =>
        rewrite (round64_zero_eq x) in Hne by apply Qmult_0_l
    end.
    discriminate Hne.
Qed.

(** Two records without any user identifier: no warning. *)
Lemma user_count_discrepancy_warning_witness :
  with_code "USER_COUNT_DISCREPANCY"
    (warnings (run_validate DEFAULT_THRESHOLDS
                 (Samples.idle_github 1000) (Samples.idle_near 1000)
                 (Samples.clock_from 2000))) = [].
Proof.
  refine (proj2 (proj2 (proj2
            (user_count_discrepancy_warning DEFAULT_THRESHOLDS
               (Samples.idle_github 1000) (Samples.idle_near 1000)
               (Samples.clock_from 2000)))) _ _).
  - vm_compute. reflexivity.
  - vm_compute. reflexivity.
Defined.

(** Rounding decides: ninety code users against twenty-seven ledger users
    under a ratio of 0.7.  The product 90 * 0.7 is the binary64 value just
    below 63, the difference 63 exceeds it, and the warning is emitted. *)
Example user_count_ninety_against_twenty_seven :
  strict_eq (mul (of_Z 90) (literal (7 # 10)))
            (Num (8866461766385663 # 140737488355328)) = true
  /\ ((8866461766385663 # 140737488355328) < 63)%Q
  /\ List.map (fun w => context_get "difference" (context w))
       (with_code "USER_COUNT_DISCREPANCY"
          (warnings (run_validate
                       (CrossValidator_new
                          (mkPartial None None None
                             (Some (JNumber (literal (7 # 10))))))
                       (mkGitHubMetrics (Samples.counter 9) (Samples.user_ids 90)
                          (Samples.counter 2) [] (Samples.counter 1) [] 1000)
                       (mkNEARMetrics (Samples.counter 5) (Samples.user_ids 27)
                          (Samples.counter 3) [] 1000)
                       (Samples.clock_from 2000))))
     = [Some (of_Z 63)].
Proof.
  split; [vm_compute; reflexivity|]. split; [reflexivity|].
  vm_compute. reflexivity.
Qed.

(** Five code users against two ledger users under a ratio of 0.6: the
    product 5 * 0.6 rounds to 3, the difference 3 does not exceed it, and no
    warning is emitted. *)
Example user_count_five_against_two :
  strict_eq (mul (of_Z 5) (literal (6 # 10))) (Num 3) = true
  /\ with_code "USER_COUNT_DISCREPANCY"
       (warnings (run_validate
                    (CrossValidator_new
                       (mkPartial None None None
                          (Some (JNumber (literal (6 # 10))))))
                    (mkGitHubMetrics (Samples.counter 9) (Samples.user_ids 5)
                       (Samples.counter 2) [] (Samples.counter 1) [] 1000)
                    (mkNEARMetrics (Samples.counter 5) (Samples.user_ids 2)
                       (Samples.counter 3) [] 1000)
                    (Samples.clock_from 2000)))
     = [].
Proof. split; vm_compute; reflexivity. Qed.

(** Three code users against one ledger user under the default ratio 0.5:
    the difference 2 exceeds 1.5. *)
Example user_count_three_against_one :
  List.map (fun w => context_get "difference" (context w))
    (with_code "USER_COUNT_DISCREPANCY"
       (warnings (run_validate DEFAULT_THRESHOLDS
                    (Samples.github_at 1000) (Samples.busy_near 1000)
                    (Samples.clock_from 2000))))
  = [Some (of_Z 2)].
Proof. vm_compute. reflexivity. Qed.

(** ** Missing counters *)

(** On finite counters the two readings agree. *)
Lemma calculateActivityCorrelation_defaults_agree github near c m i t k :
  commits_count github = JNumber (Num c) ->
  pullRequests_merged github = JNumber (Num m) ->
  issues_closed github = JNumber (Num i) ->
  transactions_count near = JNumber (Num t) ->
  contract_calls near = JNumber (Num k) ->
  calculateActivityCorrelation_defaults github near =
  calculateActivityCorrelation github near.
Proof.
  intros Hc Hm Hi Ht Hk.
  unfold calculateActivityCorrelation_defaults, calculateActivityCorrelation,
    githubActivity_defaults, nearActivity_defaults, githubActivity, nearActivity,
    js_add.
  rewrite Hc, Hm, Hi, Ht, Hk. reflexivity.
Qed.

(** A commit counter that is missing or [NaN] makes the aggregate, and with
    it the correlation, [NaN]; no comparison with [NaN] holds, so no warning
    follows. *)
Lemma missing_commits_correlation_NaN th github near :
  ToNumber (commits_count github) = NaN ->
  githubActivity github = NaN
  /\ calculateActivityCorrelation github near = NaN
  /\ low_correlation_warnings th github near = [].
Proof.
  intros H.
  assert (HA : githubActivity github = NaN).
  { unfold githubActivity, js_add. rewrite H. reflexivity. }
  assert (HC : calculateActivityCorrelation github near = NaN).
  { unfold calculateActivityCorrelation. rewrite HA. reflexivity. }
  repeat split; try assumption.
  unfold low_correlation_warnings, validateActivityCorrelation. rewrite HC.
  reflexivity.
Qed.

(** C7, the code at a record whose commit counter is missing, and at one
    where it is the falsy number [NaN], against a ledger record with activity
    10.  [validate] returns a result, but the counter does not count as zero:
    the code-activity aggregate and the correlation are [NaN] and no
    LOW_ACTIVITY_CORRELATION warning is emitted, where a zero contribution
    gives the aggregate 0, the correlation 0 and, under the default
    threshold, the warning. *)
Theorem missing_counter_not_zero :
  (githubActivity (Samples.github_missing_commits 1000) = NaN
   /\ calculateActivityCorrelation
        (Samples.github_missing_commits 1000) (Samples.busy_near 1000) = NaN
   /\ with_code "LOW_ACTIVITY_CORRELATION"
        (warnings (run_validate DEFAULT_THRESHOLDS
                     (Samples.github_missing_commits 1000) (Samples.busy_near 1000)
                     (Samples.clock_from 2000))) = []
   /\ githubActivity_defaults (Samples.github_missing_commits 1000) = Num 0
   /\ calculateActivityCorrelation_defaults
        (Samples.github_missing_commits 1000) (Samples.busy_near 1000)
      = Num 0
   /\ lt (calculateActivityCorrelation_defaults
            (Samples.github_missing_commits 1000) (Samples.busy_near 1000))
         (ToNumber (minActivityCorrelation DEFAULT_THRESHOLDS)) = true)
  /\
  (githubActivity (Samples.github_NaN_commits 1000) = NaN
   /\ calculateActivityCorrelation
        (Samples.github_NaN_commits 1000) (Samples.busy_near 1000) = NaN
   /\ with_code "LOW_ACTIVITY_CORRELATION"
        (warnings (run_validate DEFAULT_THRESHOLDS
                     (Samples.github_NaN_commits 1000) (Samples.busy_near 1000)
                     (Samples.clock_from 2000))) = []
   /\ githubActivity_defaults (Samples.github_NaN_commits 1000) = Num 0
   /\ lt (calculateActivityCorrelation_defaults
            (Samples.github_NaN_commits 1000) (Samples.busy_near 1000))
         (ToNumber (minActivityCorrelation DEFAULT_THRESHOLDS)) = true).
Proof. repeat split. Qed.

(** ** Purity *)

(** C8. [validate] leaves both argument objects as they were, and its
    errors, warnings, verdict and metadata are a function of the thresholds,
    the two records and the reading [now] of the clock: two calls on the same
    records whose first clock reading agrees return the same errors and the
    same warnings, whatever the later readings.  The [timestamp] field is the
    second reading. *)
Theorem validate_pure :
  (forall th h,
      github_obj (snd (validate th h)) = github_obj h
      /\ near_obj (snd (validate th h)) = near_obj h)
  /\ (forall th github near readings readings',
         readings 0%nat = readings' 0%nat ->
         errors (run_validate th github near readings) =
         errors (run_validate th github near readings')
         /\ warnings (run_validate th github near readings) =
            warnings (run_validate th github near readings')
         /\ isValid (run_validate th github near readings) =
            isValid (run_validate th github near readings')
         /\ metadata (run_validate th github near readings) =
            metadata (run_validate th github near readings'))
  /\ (forall th github near readings,
         timestamp (run_validate th github near readings) = readings 1%nat).
Proof.
  split; [|split].
  - intros th h. rewrite validate_run. split; reflexivity.
  - intros th github near readings readings' Hnow.
    assert (He : errors (run_validate th github near readings) =
                 errors (run_validate th github near readings')).
    { rewrite !validate_errors, Hnow. reflexivity. }
    split; [exact He|]. split; [|split].
    + rewrite !validate_warnings. reflexivity.
    + rewrite !validate_isValid, He. reflexivity.
    + rewrite !validate_metadata. reflexivity.
  - intros th github near readings. unfold run_validate.
    rewrite validate_run. reflexivity.
Qed.

(** Two clocks that agree on the first reading only. *)
Lemma validate_pure_witness :
  errors (run_validate DEFAULT_THRESHOLDS
            (Samples.github_at 1000) (Samples.near_at 2000)
            (Samples.clock_from (48 * Samples.hour))) =
  errors (run_validate DEFAULT_THRESHOLDS
            (Samples.github_at 1000) (Samples.near_at 2000)
            (fun n => match n with O => 48 * Samples.hour | S _ => 0 end))
  /\ warnings (run_validate DEFAULT_THRESHOLDS
                 (Samples.github_at 1000) (Samples.near_at 2000)
                 (Samples.clock_from (48 * Samples.hour))) =
     warnings (run_validate DEFAULT_THRESHOLDS
                 (Samples.github_at 1000) (Samples.near_at 2000)
                 (fun n => match n with O => 48 * Samples.hour | S _ => 0 end)).
Proof.
  pose proof (proj1 (proj2 validate_pure) DEFAULT_THRESHOLDS
                (Samples.github_at 1000) (Samples.near_at 2000)
                (Samples.clock_from (48 * Samples.hour))
                (fun n => match n with O => 48 * Samples.hour | S _ => 0 end)
                eq_refl) as H.
  split; [exact (proj1 H) | exact (proj1 (proj2 H))].
Defined.

(** ** Metadata *)

(** C9, as the code has it.  Every result carries the same two tags,
    [source: 'github'] and [validationType: 'data']. *)
Theorem validate_metadata_fixed :
  forall th github near readings,
    metadata (run_validate th github near readings) =
    [("source"%string, "github"%string); ("validationType"%string, "data"%string)].
Proof. exact validate_metadata. Qed.

(** C9 as stated fails: the tags name one source kind only.  The single
    [source] tag is ['github'], and no tag names the ledger source. *)
Lemma metadata_names_code_source_only :
  List.map snd
    (List.filter (fun tag => String.eqb (fst tag) "source")
       (metadata (run_validate DEFAULT_THRESHOLDS
                    (Samples.github_at 1000) (Samples.near_at 1000)
                    (Samples.clock_from 2000))))
  = ["github"%string]
  /\ List.map fst
       (metadata (run_validate DEFAULT_THRESHOLDS
                    (Samples.github_at 1000) (Samples.near_at 1000)
                    (Samples.clock_from 2000)))
     = ["source"; "validationType"]%string
  /\ ~ List.In "near"%string
         (List.map snd
            (metadata (run_validate DEFAULT_THRESHOLDS
                         (Samples.github_at 1000) (Samples.near_at 1000)
                         (Samples.clock_from 2000)))).
Proof.
  split; [reflexivity|]. split; [reflexivity|].
  simpl. intros [H | [H | []]]; discriminate H.
Qed.

(** * Further properties of the validator *)

(** ** The verdict in terms of the inputs *)

Lemma gt_false_finite (v : jsval) (q x : Q) :
  v = JNumber (Num q) -> (gt (Num x) (ToNumber v) = false <-> (x <= q)%Q).
Proof.
  intros ->. change (Qltb q x = false <-> (x <= q)%Q). rewrite Qltb_nlt. split.
  - apply Qnot_lt_le.
  - intros H H'. exact (Qlt_not_le _ _ H' H).
Qed.

Lemma drift_errors_nil th github near limit :
  maxTimeDrift th = JNumber (Num limit) ->
  (drift_errors th github near = [] <->
   (inject_Z (Z.abs (github_collectionTimestamp github - near_collectionTimestamp near))
    <= limit)%Q).
Proof.
  intros Hth. rewrite drift_errors_nil_iff. unfold hasTimestampDrift, of_Z.
  apply gt_false_finite. exact Hth.
Qed.

Lemma stale_errors_nil th now msg ts age :
  maxDataAge th = JNumber (Num age) ->
  (stale_errors th now msg ts = [] <-> (inject_Z (now - ts) <= age)%Q).
Proof.
  intros Hth. rewrite stale_errors_nil_iff. unfold of_Z.
  apply gt_false_finite. exact Hth.
Qed.

Lemma isValid_no_errors th github near readings :
  isValid (run_validate th github near readings) = true <->
  errors (run_validate th github near readings) = [].
Proof.
  rewrite validate_isValid.
  destruct (errors _) as [|e l]; simpl; split; intros H;
    try reflexivity; discriminate H.
Qed.




(** Under the defaults the same records are not valid. *)
Example seven_hours_apart_invalid_by_default :
  isValid (run_validate DEFAULT_THRESHOLDS
             (Samples.github_at 0) (Samples.near_at (7 * Samples.hour))
             (Samples.clock_from (8 * Samples.hour))) = false.
Proof. vm_compute. reflexivity. Qed.

(** X2. The errors and the verdict do not look at the activity data: two
    calls whose records carry the same collection timestamps, under the same
    [maxTimeDrift] and [maxDataAge] and the same reading [now], return the
    same errors and the same verdict, whatever the counters, the user lists
    and the two warning thresholds are. *)
Theorem errors_depend_on_timestamps_only :
  forall th th' github github' near near' readings readings',
    maxTimeDrift th = maxTimeDrift th' ->
    maxDataAge th = maxDataAge th' ->
    github_collectionTimestamp github = github_collectionTimestamp github' ->
    near_collectionTimestamp near = near_collectionTimestamp near' ->
    readings 0%nat = readings' 0%nat ->
    errors (run_validate th github near readings) =
    errors (run_validate th' github' near' readings')
    /\ isValid (run_validate th github near readings) =
       isValid (run_validate th' github' near' readings').
Proof.
  intros th th' github github' near near' readings readings' Hd Ha HA HB Hnow.
  assert (He : errors (run_validate th github near readings) =
               errors (run_validate th' github' near' readings')).
  { rewrite !validate_errors.
    unfold drift_errors, hasTimestampDrift, calculateTimeDrift,
      stale_errors, stale_error.
    rewrite Hd, Ha, HA, HB, Hnow. reflexivity. }
  split; [exact He|]. rewrite !validate_isValid, He. reflexivity.
Qed.

(** Busy records and idle records collected at the same instants. *)
Lemma errors_depend_on_timestamps_only_witness :
  errors (run_validate DEFAULT_THRESHOLDS
            (Samples.github_at 1000) (Samples.near_at 2000)
            (Samples.clock_from (48 * Samples.hour))) =
  errors (run_validate (Samples.with_minActivityCorrelation 2)
            (Samples.idle_github 1000) (Samples.idle_near 2000)
            (Samples.clock_from (48 * Samples.hour))).
Proof.
  refine (proj1 (errors_depend_on_timestamps_only
                   DEFAULT_THRESHOLDS (Samples.with_minActivityCorrelation 2)
                   (Samples.github_at 1000) (Samples.idle_github 1000)
                   (Samples.near_at 2000) (Samples.idle_near 2000)
                   (Samples.clock_from (48 * Samples.hour))
                   (Samples.clock_from (48 * Samples.hour))
                   _ _ _ _ _)); reflexivity.
Defined.

(** X3. The warnings do not look at the timestamps or the clock: two calls
    whose records carry the same five counters and the same sets of users,
    under the same [minActivityCorrelation] and [maxUserDiffRatio], return
    the same warnings, whatever the timestamps, the clock readings, the
    other two thresholds and the order or repetition of user identifiers
    are. *)
Theorem warnings_depend_on_activity_only :
  forall th th' github github' near near' readings readings',
    minActivityCorrelation th = minActivityCorrelation th' ->
    maxUserDiffRatio th = maxUserDiffRatio th' ->
    commits_count github = commits_count github' ->
    pullRequests_merged github = pullRequests_merged github' ->
    issues_closed github = issues_closed github' ->
    transactions_count near = transactions_count near' ->
    contract_calls near = contract_calls near' ->
    githubUsers github = githubUsers github' ->
    nearUsers near = nearUsers near' ->
    warnings (run_validate th github near readings) =
    warnings (run_validate th' github' near' readings').
Proof.
  intros th th' github github' near near' readings readings'
    Hc Hr H1 H2 H3 H4 H5 HA HB.
  rewrite !validate_warnings_app.
  unfold low_correlation_warnings, validateActivityCorrelation,
    calculateActivityCorrelation, githubActivity, nearActivity,
    user_count_warnings, validateUserEngagement, maxDiff, userDiff.
  rewrite Hc, Hr, H1, H2, H3, H4, H5, HA, HB. reflexivity.
Qed.

(** The same activity, stale and far apart on one side, with the user lists
    reordered and repeated. *)
Lemma warnings_depend_on_activity_only_witness :
  warnings (run_validate DEFAULT_THRESHOLDS
              (Samples.github_at 1000) (Samples.busy_near 1000)
              (Samples.clock_from 2000)) =
  warnings (run_validate (Samples.with_maxTimeDrift 5)
              (mkGitHubMetrics (Samples.counter 9) ["carol"; "bob"; "bob"]%string
                 (Samples.counter 2) ["alice"; "carol"]%string
                 (Samples.counter 1) [] 0)
              (Samples.busy_near (72 * Samples.hour))
              (Samples.clock_from (480 * Samples.hour))).
Proof.
  apply warnings_depend_on_activity_only; reflexivity.
Defined.

(** ** Each check looks at its own threshold *)

Lemma with_code_drift_validate th github near readings :
  with_code "TIMESTAMP_DRIFT" (errors (run_validate th github near readings)) =
  drift_errors th github near.
Proof.
  rewrite validate_errors, !with_code_app, with_code_drift_errors,
    !with_code_stale_errors.
  simpl. rewrite !app_nil_r. reflexivity.
Qed.

Lemma with_code_stale_validate th github near readings :
  with_code "STALE_DATA" (errors (run_validate th github near readings)) =
  stale_errors th (readings 0%nat) github_stale_msg (github_collectionTimestamp github)
  ++ stale_errors th (readings 0%nat) near_stale_msg (near_collectionTimestamp near).
Proof.
  rewrite validate_errors, !with_code_app, with_code_drift_errors,
    !with_code_stale_errors.
  reflexivity.
Qed.

Lemma drift_errors_ext th th' github near :
  maxTimeDrift th = maxTimeDrift th' ->
  drift_errors th github near = drift_errors th' github near.
Proof. intros H. unfold drift_errors, hasTimestampDrift. rewrite H. reflexivity. Qed.

Lemma stale_errors_ext th th' now msg ts :
  maxDataAge th = maxDataAge th' ->
  stale_errors th now msg ts = stale_errors th' now msg ts.
Proof. intros H. unfold stale_errors, stale_error. rewrite H. reflexivity. Qed.

Lemma low_correlation_warnings_ext th th' github near :
  minActivityCorrelation th = minActivityCorrelation th' ->
  low_correlation_warnings th github near = low_correlation_warnings th' github near.
Proof.
  intros H. unfold low_correlation_warnings, validateActivityCorrelation.
  rewrite H. reflexivity.
Qed.

Lemma user_count_warnings_ext th th' github near :
  maxUserDiffRatio th = maxUserDiffRatio th' ->
  user_count_warnings th github near = user_count_warnings th' github near.
Proof.
  intros H. unfold user_count_warnings, validateUserEngagement, maxDiff.
  rewrite H. reflexivity.
Qed.

(** X4. A threshold that the constructor is not given keeps its check as it
    is under the defaults: for any partial override, the findings of a check
    whose threshold is absent from the override are those of the default
    validator, whatever the other three overrides are. *)
Theorem absent_override_keeps_default_check :
  forall overrides github near readings,
    let r := run_validate (CrossValidator_new overrides) github near readings in
    let r0 := run_validate DEFAULT_THRESHOLDS github near readings in
    (opt_maxTimeDrift overrides = None ->
     with_code "TIMESTAMP_DRIFT" (errors r) = with_code "TIMESTAMP_DRIFT" (errors r0))
    /\ (opt_maxDataAge overrides = None ->
        with_code "STALE_DATA" (errors r) = with_code "STALE_DATA" (errors r0))
    /\ (opt_minActivityCorrelation overrides = None ->
        with_code "LOW_ACTIVITY_CORRELATION" (warnings r) =
        with_code "LOW_ACTIVITY_CORRELATION" (warnings r0))
    /\ (opt_maxUserDiffRatio overrides = None ->
        with_code "USER_COUNT_DISCREPANCY" (warnings r) =
        with_code "USER_COUNT_DISCREPANCY" (warnings r0)).
Proof.
  intros overrides github near readings r r0. unfold r, r0.
  repeat split; intros H.
  - rewrite !with_code_drift_validate. apply drift_errors_ext.
    unfold CrossValidator_new. cbn [maxTimeDrift]. rewrite H. reflexivity.
  - rewrite !with_code_stale_validate.
    assert (Ha : maxDataAge (CrossValidator_new overrides) =
                 maxDataAge DEFAULT_THRESHOLDS).
    { unfold CrossValidator_new. cbn [maxDataAge]. rewrite H. reflexivity. }
    rewrite !(stale_errors_ext _ _ _ _ _ Ha). reflexivity.
  - rewrite !with_code_low_warnings. apply low_correlation_warnings_ext.
    unfold CrossValidator_new. cbn [minActivityCorrelation]. rewrite H. reflexivity.
  - rewrite !with_code_user_warnings. apply user_count_warnings_ext.
    unfold CrossValidator_new. cbn [maxUserDiffRatio]. rewrite H. reflexivity.
Qed.

(** Overriding the drift limit only: the freshness check is the default one. *)
Lemma absent_override_keeps_default_check_witness :
  with_code "STALE_DATA"
    (errors (run_validate (Samples.with_maxTimeDrift 5)
               (Samples.github_at 1000) (Samples.near_at 2000)
               (Samples.clock_from (48 * Samples.hour)))) =
  with_code "STALE_DATA"
    (errors (run_validate DEFAULT_THRESHOLDS
               (Samples.github_at 1000) (Samples.near_at 2000)
               (Samples.clock_from (48 * Samples.hour)))).
Proof.
  refine (proj1 (proj2
            (absent_override_keeps_default_check
               (mkPartial (Some (JNumber (Num 5))) None None None)
               (Samples.github_at 1000) (Samples.near_at 2000)
               (Samples.clock_from (48 * Samples.hour)))) _).
  reflexivity.
Defined.

(** ** Relaxing the thresholds *)

Lemma length_le_of_nil {A} (l l' : list A) :
  (length l' <= 1)%nat -> (l = [] -> l' = []) -> (length l' <= length l)%nat.
Proof.
  intros Hlen Hnil. destruct l as [|x l].
  - rewrite (Hnil eq_refl). simpl. lia.
  - simpl. lia.
Qed.

Lemma drift_errors_mono th th' github near limit limit' :
  maxTimeDrift th = JNumber (Num limit) ->
  maxTimeDrift th' = JNumber (Num limit') ->
  (limit <= limit')%Q ->
  (length (drift_errors th' github near) <= length (drift_errors th github near))%nat.
Proof.
  intros Hth Hth' Hle. apply length_le_of_nil; [apply length_drift_errors|].
  rewrite (drift_errors_nil _ _ _ _ Hth), (drift_errors_nil _ _ _ _ Hth').
  intros H. eapply Qle_trans; eassumption.
Qed.

Lemma stale_errors_mono th th' now msg ts age age' :
  maxDataAge th = JNumber (Num age) ->
  maxDataAge th' = JNumber (Num age') ->
  (age <= age')%Q ->
  (length (stale_errors th' now msg ts) <= length (stale_errors th now msg ts))%nat.
Proof.
  intros Hth Hth' Hle. apply length_le_of_nil; [apply length_stale_errors|].
  rewrite (stale_errors_nil _ _ _ _ _ Hth), (stale_errors_nil _ _ _ _ _ Hth').
  intros H. eapply Qle_trans; eassumption.
Qed.

(** A record that is stale at one reading is stale at every later one,
    whatever the threshold holds. *)
Lemma stale_errors_later th now now' msg ts :
  now <= now' ->
  (length (stale_errors th now msg ts) <= length (stale_errors th now' msg ts))%nat.
Proof.
  intros Hnow. apply length_le_of_nil; [apply length_stale_errors|].
  rewrite !stale_errors_nil_iff. unfold of_Z, gt.
  destruct (ToNumber (maxDataAge th)) as [q|]; [|reflexivity].
  cbn [lt]. rewrite !Qltb_nlt. intros H H'. apply H.
  eapply Qlt_le_trans; [exact H'|]. rewrite <- Zle_Qle. lia.
Qed.

Lemma lt_Num_mono x (t t' : Q) :
  (t' <= t)%Q -> lt x (Num t') = true -> lt x (Num t) = true.
Proof.
  destruct x as [q|]; simpl; [|discriminate].
  rewrite !Qltb_lt. intros Hle Hlt. eapply Qlt_le_trans; eassumption.
Qed.

Lemma low_correlation_warnings_mono th th' github near limit limit' :
  minActivityCorrelation th = JNumber (Num limit) ->
  minActivityCorrelation th' = JNumber (Num limit') ->
  (limit' <= limit)%Q ->
  (length (low_correlation_warnings th' github near)
   <= length (low_correlation_warnings th github near))%nat.
Proof.
  intros Hth Hth' Hle. apply length_le_of_nil; [apply length_low_correlation_warnings|].
  rewrite !low_correlation_warnings_nil, Hth, Hth'. cbn [ToNumber]. intros H.
  destruct (lt _ (Num limit')) eqn:E; [|reflexivity].
  rewrite (lt_Num_mono _ _ _ Hle E) in H. discriminate H.
Qed.

Lemma set_size_nonneg (s : gset string) : 0 <= set_size s.
Proof. unfold set_size. lia. Qed.

Lemma user_count_warnings_nil th github near :
  user_count_warnings th github near = [] <->
  gt (of_Z (userDiff github near)) (maxDiff th github near) = false.
Proof.
  pose proof (user_count_warnings_gt th github near) as Hgt.
  destruct (user_count_warnings th github near) as [|w ws].
  - split; [|reflexivity]. intros _.
    destruct (gt _ _); [|reflexivity].
    exfalso. apply (proj2 Hgt eq_refl). reflexivity.
  - split; [discriminate|]. intros H. exfalso.
    assert (Hne : w :: ws <> []) by discriminate.
    apply Hgt in Hne. congruence.
Qed.

Lemma user_count_warnings_nil_finite th github near ratio :
  maxUserDiffRatio th = JNumber (Num ratio) ->
  (user_count_warnings th github near = [] <->
   (inject_Z (userDiff github near)
    <= fmul (inject_Z (Z.max (set_size (githubUsers github))
                             (set_size (nearUsers near)))) ratio)%Q).
Proof.
  intros Hth. rewrite user_count_warnings_nil, (maxDiff_finite _ _ _ _ Hth).
  unfold of_Z, gt, lt. rewrite Qltb_nlt. split.
  - apply Qnot_lt_le.
  - intros H H'. exact (Qlt_not_le _ _ H' H).
Qed.

Lemma fmul_mono_r (m r r' : Q) :
  (0 <= m)%Q -> (r <= r')%Q -> (fmul m r <= fmul m r')%Q.
Proof.
  intros Hm Hr. unfold fmul. apply round64_mono.
  rewrite !(Qmult_comm m). apply Qmult_le_compat_r; assumption.
Qed.

Lemma max_size_nonneg github near :
  (0 <= inject_Z (Z.max (set_size (githubUsers github))
                        (set_size (nearUsers near))))%Q.
Proof.
  change 0%Q with (inject_Z 0). rewrite <- Zle_Qle.
  pose proof (set_size_nonneg (githubUsers github)). lia.
Qed.

Lemma user_count_warnings_mono th th' github near ratio ratio' :
  maxUserDiffRatio th = JNumber (Num ratio) ->
  maxUserDiffRatio th' = JNumber (Num ratio') ->
  (ratio <= ratio')%Q ->
  (length (user_count_warnings th' github near)
   <= length (user_count_warnings th github near))%nat.
Proof.
  intros Hth Hth' Hle. apply length_le_of_nil; [apply length_user_count_warnings|].
  rewrite (user_count_warnings_nil_finite _ _ _ _ Hth),
    (user_count_warnings_nil_finite _ _ _ _ Hth').
  intros H. eapply Qle_trans; [exact H|].
  apply fmul_mono_r; [apply max_size_nonneg | exact Hle].
Qed.

(** X5. Relaxing the thresholds never adds a finding: when [maxTimeDrift],
    [maxDataAge] and [maxUserDiffRatio] are raised and
    [minActivityCorrelation] is lowered (each possibly left as it is), every
    code has at most as many errors and at most as many warnings as before,
    and a pair that was valid stays valid. *)
Theorem relaxed_thresholds_remove_findings :
  forall th th' github near readings
         (drift drift' age age' corr corr' ratio ratio' : Q),
    maxTimeDrift th = JNumber (Num drift) ->
    maxTimeDrift th' = JNumber (Num drift') ->
    maxDataAge th = JNumber (Num age) ->
    maxDataAge th' = JNumber (Num age') ->
    minActivityCorrelation th = JNumber (Num corr) ->
    minActivityCorrelation th' = JNumber (Num corr') ->
    maxUserDiffRatio th = JNumber (Num ratio) ->
    maxUserDiffRatio th' = JNumber (Num ratio') ->
    (drift <= drift')%Q ->
    (age <= age')%Q ->
    (corr' <= corr)%Q ->
    (ratio <= ratio')%Q ->
    let r := run_validate th github near readings in
    let r' := run_validate th' github near readings in
    (forall c, (length (with_code c (errors r')) <= length (with_code c (errors r)))%nat)
    /\ (forall c, (length (with_code c (warnings r'))
                   <= length (with_code c (warnings r)))%nat)
    /\ (length (errors r') <= length (errors r))%nat
    /\ (length (warnings r') <= length (warnings r))%nat
    /\ (isValid r = true -> isValid r' = true).
Proof.
  intros th th' github near readings drift drift' age age' corr corr' ratio ratio'
    Td Td' Ta Ta' Tc Tc' Tr Tr' Hd Ha Hc Hr r r'. unfold r, r'.
  pose proof (drift_errors_mono th th' github near _ _ Td Td' Hd) as H1.
  pose proof (stale_errors_mono th th' (readings 0%nat)
                github_stale_msg (github_collectionTimestamp github)
                _ _ Ta Ta' Ha) as H2.
  pose proof (stale_errors_mono th th' (readings 0%nat)
                near_stale_msg (near_collectionTimestamp near)
                _ _ Ta Ta' Ha) as H3.
  pose proof (low_correlation_warnings_mono th th' github near _ _ Tc Tc' Hc) as H4.
  pose proof (user_count_warnings_mono th th' github near _ _ Tr Tr' Hr) as H5.
  unfold ValidationWarning in *.
  split; [|split; [|split; [|split]]].
  - intros c. rewrite !validate_errors, !with_code_app,
      !with_code_drift_errors, !with_code_stale_errors.
    destruct (String.eqb "TIMESTAMP_DRIFT" c), (String.eqb "STALE_DATA" c);
      rewrite !length_app; simpl; lia.
  - intros c. rewrite !validate_warnings_app, !with_code_app,
      !with_code_low_correlation_warnings, !with_code_user_count_warnings.
    destruct (String.eqb "LOW_ACTIVITY_CORRELATION" c),
      (String.eqb "USER_COUNT_DISCREPANCY" c);
      rewrite !length_app; simpl; unfold ValidationWarning; lia.
  - rewrite !validate_errors, !length_app. lia.
  - rewrite !validate_warnings_app, !length_app. unfold ValidationWarning. lia.
  - rewrite !isValid_no_errors, !validate_errors.
    intros H. apply app_eq_nil in H as [E1 E2]. apply app_eq_nil in E2 as [E2 E3].
    rewrite E1 in H1. rewrite E2 in H2. rewrite E3 in H3. simpl in H1, H2, H3.
    destruct (drift_errors th' github near); [|simpl in H1; lia].
    destruct (stale_errors th' _ github_stale_msg _); [|simpl in H2; lia].
    destruct (stale_errors th' _ near_stale_msg _); [|simpl in H3; lia].
    reflexivity.
Qed.

(** Seven hours apart: an error under the default six hours, fewer errors
    under eight. *)
Lemma relaxed_thresholds_remove_findings_witness :
  (length (errors (run_validate (Samples.with_maxTimeDrift (inject_Z (8 * Samples.hour)))
                     (Samples.github_at 0) (Samples.near_at (7 * Samples.hour))
                     (Samples.clock_from (8 * Samples.hour))))
   <= length (errors (run_validate DEFAULT_THRESHOLDS
                        (Samples.github_at 0) (Samples.near_at (7 * Samples.hour))
                        (Samples.clock_from (8 * Samples.hour)))))%nat.
Proof.
  refine (proj1 (proj2 (proj2
            (relaxed_thresholds_remove_findings
               DEFAULT_THRESHOLDS
               (Samples.with_maxTimeDrift (inject_Z (8 * Samples.hour)))
               (Samples.github_at 0) (Samples.near_at (7 * Samples.hour))
               (Samples.clock_from (8 * Samples.hour))
               (inject_Z (6 * 60 * 60 * 1000)) (inject_Z (8 * Samples.hour))
               (inject_Z (24 * 60 * 60 * 1000)) (inject_Z (24 * 60 * 60 * 1000))
               (round64 (3 # 10)) (round64 (3 # 10))
               (round64 (1 # 2)) (round64 (1 # 2))
               eq_refl eq_refl eq_refl eq_refl eq_refl eq_refl eq_refl eq_refl
               _ _ _ _))));
    vm_compute; discriminate.
Defined.

(** ** Freshness and the passing of time *)

(** X6. Staleness only grows with time: validating the same pair at a later
    reading keeps every error of the earlier validation (per code, at least
    as many), leaves the warnings as they are, and a pair that is valid at the
    later reading was valid at the earlier one. *)
Theorem later_validation_keeps_errors :
  forall th github near readings readings',
    readings 0%nat <= readings' 0%nat ->
    let r := run_validate th github near readings in
    let r' := run_validate th github near readings' in
    (forall c, (length (with_code c (errors r)) <= length (with_code c (errors r')))%nat)
    /\ with_code "TIMESTAMP_DRIFT" (errors r) = with_code "TIMESTAMP_DRIFT" (errors r')
    /\ warnings r = warnings r'
    /\ (isValid r' = true -> isValid r = true).
Proof.
  intros th github near readings readings' Hnow r r'. unfold r, r'.
  pose proof (stale_errors_later th (readings 0%nat) (readings' 0%nat)
                github_stale_msg (github_collectionTimestamp github) Hnow) as H2.
  pose proof (stale_errors_later th (readings 0%nat) (readings' 0%nat)
                near_stale_msg (near_collectionTimestamp near) Hnow) as H3.
  split; [|split; [|split]].
  - intros c. rewrite !validate_errors, !with_code_app,
      !with_code_drift_errors, !with_code_stale_errors.
    destruct (String.eqb "TIMESTAMP_DRIFT" c), (String.eqb "STALE_DATA" c);
      rewrite !length_app; simpl; lia.
  - rewrite !with_code_drift_validate. reflexivity.
  - rewrite !validate_warnings. reflexivity.
  - rewrite !isValid_no_errors, !validate_errors.
    intros H. apply app_eq_nil in H as [E1 E2]. apply app_eq_nil in E2 as [E2 E3].
    rewrite E1. rewrite E2 in H2. rewrite E3 in H3. simpl in H2, H3.
    destruct (stale_errors th (readings 0%nat) github_stale_msg _);
      [|simpl in H2; lia].
    destruct (stale_errors th (readings 0%nat) near_stale_msg _);
      [|simpl in H3; lia].
    reflexivity.
Qed.

(** A pair validated one hour and fifty hours after collection. *)
Lemma later_validation_keeps_errors_witness :
  warnings (run_validate DEFAULT_THRESHOLDS
              (Samples.github_at 0) (Samples.near_at 0)
              (Samples.clock_from Samples.hour)) =
  warnings (run_validate DEFAULT_THRESHOLDS
              (Samples.github_at 0) (Samples.near_at 0)
              (Samples.clock_from (50 * Samples.hour))).
Proof.
  refine (proj1 (proj2 (proj2
            (later_validation_keeps_errors DEFAULT_THRESHOLDS
               (Samples.github_at 0) (Samples.near_at 0)
               (Samples.clock_from Samples.hour)
               (Samples.clock_from (50 * Samples.hour)) _)))).
  vm_compute. discriminate.
Defined.

(** X7. A record dated at or after the reading [now] is never stale when
    [maxDataAge] is not negative: the age is taken as [now - timestamp]
    without an absolute value, so a timestamp in the future, however far,
    passes the freshness check.  With both records so dated there is no
    STALE_DATA error; with the code-activity record so dated every STALE_DATA
    error is the ledger record's, and conversely. *)
Theorem future_dated_record_is_fresh :
  forall th github near readings (age : Q),
    maxDataAge th = JNumber (Num age) ->
    (0 <= age)%Q ->
    let now := readings 0%nat in
    let r := run_validate th github near readings in
    let tsA := github_collectionTimestamp github in
    let tsB := near_collectionTimestamp near in
    (now <= tsA ->
     forall e, List.In e (with_code "STALE_DATA" (errors r)) ->
               message e = "NEAR data is too old"%string)
    /\ (now <= tsB ->
        forall e, List.In e (with_code "STALE_DATA" (errors r)) ->
                  message e = "GitHub data is too old"%string)
    /\ (now <= tsA -> now <= tsB -> with_code "STALE_DATA" (errors r) = []).
Proof.
  intros th github near readings age Hth Hpos now r tsA tsB.
  assert (Hfresh : forall msg ts, now <= ts -> stale_errors th now msg ts = []).
  { intros msg ts Hts. apply (stale_errors_nil _ _ _ _ _ Hth).
    eapply Qle_trans; [|exact Hpos].
    change 0%Q with (inject_Z 0). rewrite <- Zle_Qle. lia. }
  unfold r. rewrite with_code_stale_validate. fold now tsA tsB.
  split; [|split].
  - intros HA e. rewrite (Hfresh _ _ HA). simpl.
    intros He. apply code_stale_errors in He. rewrite He. reflexivity.
  - intros HB e. rewrite (Hfresh _ _ HB), app_nil_r.
    intros He. apply code_stale_errors in He. rewrite He. reflexivity.
  - intros HA HB. rewrite (Hfresh _ _ HA), (Hfresh _ _ HB). reflexivity.
Qed.

(** Two records dated a year after the reading of the clock. *)
Lemma future_dated_record_is_fresh_witness :
  with_code "STALE_DATA"
    (errors (run_validate DEFAULT_THRESHOLDS
               (Samples.github_at (8760 * Samples.hour))
               (Samples.near_at (8760 * Samples.hour))
               (Samples.clock_from 0))) = [].
Proof.
  refine (proj2 (proj2
            (future_dated_record_is_fresh DEFAULT_THRESHOLDS
               (Samples.github_at (8760 * Samples.hour))
               (Samples.near_at (8760 * Samples.hour))
               (Samples.clock_from 0)
               (inject_Z (24 * 60 * 60 * 1000)) eq_refl _)) _ _);
    vm_compute; discriminate.
Defined.

(** ** The drift between the timestamps *)

(** X8. The drift check sees only the distance between the two collection
    timestamps: exchanging the two timestamps, or moving both by the same
    amount, leaves the drift decision, the reported drift and the
    TIMESTAMP_DRIFT errors of [validate] as they are.  The reported drift is
    never negative and is 0 exactly for equal timestamps. *)
Theorem drift_depends_on_distance :
  forall th github near github' near' readings readings',
    (github_collectionTimestamp github' = near_collectionTimestamp near
     /\ near_collectionTimestamp near' = github_collectionTimestamp github)
    \/ (exists shift,
           github_collectionTimestamp github' = github_collectionTimestamp github + shift
           /\ near_collectionTimestamp near' = near_collectionTimestamp near + shift) ->
    hasTimestampDrift th github' near' = hasTimestampDrift th github near
    /\ calculateTimeDrift github' near' = calculateTimeDrift github near
    /\ with_code "TIMESTAMP_DRIFT" (errors (run_validate th github' near' readings')) =
       with_code "TIMESTAMP_DRIFT" (errors (run_validate th github near readings))
    /\ (exists d, calculateTimeDrift github near = of_Z d /\ 0 <= d
                  /\ (d = 0 <->
                      github_collectionTimestamp github = near_collectionTimestamp near)).
Proof.
  intros th github near github' near' readings readings' H.
  assert (Habs : Z.abs (github_collectionTimestamp github'
                        - near_collectionTimestamp near') =
                 Z.abs (github_collectionTimestamp github
                        - near_collectionTimestamp near)).
  { destruct H as [[-> ->] | (shift & -> & ->)]; lia. }
  assert (Hd : calculateTimeDrift github' near' = calculateTimeDrift github near).
  { unfold calculateTimeDrift. rewrite Habs. reflexivity. }
  assert (Hh : hasTimestampDrift th github' near' = hasTimestampDrift th github near).
  { unfold hasTimestampDrift. rewrite Habs. reflexivity. }
  repeat split; try assumption.
  - rewrite !with_code_drift_validate. unfold drift_errors. rewrite Hh, Hd.
    reflexivity.
  - eexists. split; [reflexivity|]. split; [apply Z.abs_nonneg|]. lia.
Qed.

(** The two sample records with their timestamps exchanged. *)
Lemma drift_depends_on_distance_witness :
  calculateTimeDrift (Samples.github_at (7 * Samples.hour)) (Samples.near_at 0) =
  calculateTimeDrift (Samples.github_at 0) (Samples.near_at (7 * Samples.hour)).
Proof.
  refine (proj1 (proj2
            (drift_depends_on_distance DEFAULT_THRESHOLDS
               (Samples.github_at 0) (Samples.near_at (7 * Samples.hour))
               (Samples.github_at (7 * Samples.hour)) (Samples.near_at 0)
               (Samples.clock_from 0) (Samples.clock_from 0) _))).
  left. split; reflexivity.
Defined.

(** X9. [validateTimestamps], the method left off the main path, decides as
    the main path does: it appends one error exactly when [hasTimestampDrift]
    holds, that is exactly when [validate] reports TIMESTAMP_DRIFT, and
    otherwise returns the array as it was; the appended error carries under
    [drift] the value that [calculateTimeDrift] reports, under [threshold]
    the configured [maxTimeDrift], and both timestamps. *)
Theorem validateTimestamps_agrees_with_validate :
  forall th github near errs readings,
    exists added,
      validateTimestamps th github near errs = errs ++ added
      /\ (length added <= 1)%nat
      /\ (added <> [] <-> hasTimestampDrift th github near = true)
      /\ (added <> [] <->
          with_code "TIMESTAMP_DRIFT"
            (errors (run_validate th github near readings)) <> [])
      /\ (forall e, List.In e added ->
            context_get "drift" (context e) = Some (calculateTimeDrift github near)
            /\ context_get "threshold" (context e)
               = Some (ToNumber (maxTimeDrift th))
            /\ context_get "githubTimestamp" (context e)
               = Some (of_Z (github_collectionTimestamp github))
            /\ context_get "nearTimestamp" (context e)
               = Some (of_Z (near_collectionTimestamp near))).
Proof.
  intros th github near errs readings.
  rewrite with_code_drift_validate.
  unfold validateTimestamps, drift_errors, hasTimestampDrift, push.
  destruct (gt _ _).
  - eexists. split; [reflexivity|]. split; [simpl; lia|].
    split; [split; [reflexivity | discriminate]|].
    split; [split; discriminate|].
    intros e [<- | []]. repeat split; reflexivity.
  - exists []. split; [symmetry; apply app_nil_r|]. split; [simpl; lia|].
    split; [split; [intros H; exfalso; apply H; reflexivity | discriminate]|].
    split; [split; intros H; exfalso; apply H; reflexivity|].
    intros e [].
Qed.

(** ** Arrays passed to the checks *)

(** X10. Every check only appends: whatever the array it is handed already
    holds, [validateDataFreshness], [validateActivityCorrelation],
    [validateUserEngagement] and [validateTimestamps] return those entries,
    in their order, followed by what the check returns on an empty array;
    [validateDataFreshness] reads the clock once either way. *)
Theorem checks_only_append :
  forall th github near (existing : list ValidationError) h,
    fst (validateDataFreshness th github near existing h) =
    existing ++ fst (validateDataFreshness th github near [] h)
    /\ snd (validateDataFreshness th github near existing h) =
       snd (validateDataFreshness th github near [] h)
    /\ clock (snd (validateDataFreshness th github near existing h)) =
       (fun n => clock h (S n))
    /\ validateActivityCorrelation th github near existing =
       existing ++ validateActivityCorrelation th github near []
    /\ validateUserEngagement th github near existing =
       existing ++ validateUserEngagement th github near []
    /\ validateTimestamps th github near existing =
       existing ++ validateTimestamps th github near [].
Proof.
  intros th github near existing h.
  rewrite !validateDataFreshness_run.
  repeat split.
  - apply validateActivityCorrelation_app.
  - apply validateUserEngagement_app.
  - unfold validateTimestamps, push. destruct (gt _ _);
      [reflexivity | symmetry; apply app_nil_r].
Qed.

(** ** The correlation as a ratio of magnitudes *)

Lemma calculateActivityCorrelation_ratio github near a b :
  githubActivity github = Num a ->
  nearActivity near = Num b ->
  calculateActivityCorrelation github near = Num (activity_ratio a b).
Proof.
  intros Ha Hb. rewrite (calculateActivityCorrelation_Num _ _ _ _ Ha Hb).
  unfold activity_ratio. destruct (Qeq_bool _ _); reflexivity.
Qed.

Lemma activity_ratio_cases (a b : Q) :
  ((Qmax a b == 0)%Q /\ activity_ratio a b = 1%Q)
  \/ (~ (Qmax a b == 0)%Q
      /\ activity_ratio a b = fdiv (Qmin a b) (Qmax a b)).
Proof.
  unfold activity_ratio. destruct (Qeq_bool (Qmax a b) 0) eqn:E.
  - left. split; [apply Qeq_bool_iff; exact E | reflexivity].
  - right. split; [apply Qeq_bool_neq; exact E | reflexivity].
Qed.

Lemma Qminmax_cases (a b : Q) :
  ((a < b)%Q /\ (Qmax a b == b)%Q /\ (Qmin a b == a)%Q)
  \/ ((b <= a)%Q /\ (Qmax a b == a)%Q /\ (Qmin a b == b)%Q).
Proof.
  destruct (Q.max_spec a b) as [[H1 H2] | [H1 H2]];
    destruct (Q.min_spec a b) as [[H3 H4] | [H3 H4]].
  - left. repeat split; assumption.
  - exfalso. exact (Qlt_not_le _ _ H1 H3).
  - exfalso. exact (Qlt_not_le _ _ H3 H1).
  - right. repeat split; assumption.
Qed.

Lemma fdiv_compat (x x' y y' : Q) :
  (x == x')%Q -> (y == y')%Q -> (fdiv x y == fdiv x' y')%Q.
Proof.
  intros Hx Hy. unfold fdiv. apply round64_compat. rewrite Hx, Hy. reflexivity.
Qed.

Lemma activity_ratio_compat (a a' b b' : Q) :
  (a == a')%Q -> (b == b')%Q -> (activity_ratio a b == activity_ratio a' b')%Q.
Proof.
  intros Ha Hb.
  assert (Hmax : (Qmax a b == Qmax a' b')%Q) by (rewrite Ha, Hb; reflexivity).
  assert (Hmin : (Qmin a b == Qmin a' b')%Q) by (rewrite Ha, Hb; reflexivity).
  destruct (activity_ratio_cases a b) as [[H1 ->] | [H1 ->]];
    destruct (activity_ratio_cases a' b') as [[H2 ->] | [H2 ->]].
  - reflexivity.
  - exfalso. apply H2. rewrite <- Hmax. exact H1.
  - exfalso. apply H1. rewrite Hmax. exact H2.
  - apply fdiv_compat; assumption.
Qed.

Lemma activity_ratio_comm (a b : Q) : (activity_ratio a b == activity_ratio b a)%Q.
Proof.
  pose proof (Q.max_comm a b) as Hmax. pose proof (Q.min_comm a b) as Hmin.
  destruct (activity_ratio_cases a b) as [[H1 ->] | [H1 ->]];
    destruct (activity_ratio_cases b a) as [[H2 ->] | [H2 ->]].
  - reflexivity.
  - exfalso. apply H2. rewrite <- Hmax. exact H1.
  - exfalso. apply H1. rewrite Hmax. exact H2.
  - apply fdiv_compat; assumption.
Qed.

Lemma Qltb_compat (q q' t : Q) : (q == q')%Q -> Qltb q t = Qltb q' t.
Proof.
  intros H. destruct (Qltb q t) eqn:E1; destruct (Qltb q' t) eqn:E2;
    try reflexivity.
  - apply Qltb_lt in E1. apply Qltb_nlt in E2. exfalso. apply E2.
    rewrite <- H. exact E1.
  - apply Qltb_nlt in E1. apply Qltb_lt in E2. exfalso. apply E1.
    rewrite H. exact E2.
Qed.

Lemma lt_compat (q q' : Q) (t : number) : (q == q')%Q -> lt (Num q) t = lt (Num q') t.
Proof.
  intros H. destruct t as [x|]; [|reflexivity]. apply Qltb_compat. exact H.
Qed.

Lemma low_correlation_warnings_nil_equiv th github near github' near' q q' :
  calculateActivityCorrelation github near = Num q ->
  calculateActivityCorrelation github' near' = Num q' ->
  (q == q')%Q ->
  (low_correlation_warnings th github near = [] <->
   low_correlation_warnings th github' near' = []).
Proof.
  intros Hq Hq' Heq. rewrite !low_correlation_warnings_nil, Hq, Hq'.
  rewrite (lt_compat _ _ _ Heq). reflexivity.
Qed.

(** X11. The correlation does not tell the sources apart: when the activity
    levels of the two sources are exchanged the correlation has the same
    value, and the LOW_ACTIVITY_CORRELATION warning is emitted in the one
    case exactly when it is in the other. *)
Theorem correlation_symmetric :
  forall th github near github' near' readings readings' (a b a' b' : Q),
    githubActivity github = Num a ->
    nearActivity near = Num b ->
    githubActivity github' = Num a' ->
    nearActivity near' = Num b' ->
    (a' == b)%Q -> (b' == a)%Q ->
    exists q q' : Q,
      calculateActivityCorrelation github near = Num q
      /\ calculateActivityCorrelation github' near' = Num q'
      /\ (q == q')%Q
      /\ (with_code "LOW_ACTIVITY_CORRELATION"
            (warnings (run_validate th github near readings)) = [] <->
          with_code "LOW_ACTIVITY_CORRELATION"
            (warnings (run_validate th github' near' readings')) = []).
Proof.
  intros th github near github' near' readings readings' a b a' b'
    Ha Hb Ha' Hb' Hab Hba.
  pose proof (calculateActivityCorrelation_ratio _ _ _ _ Ha Hb) as Hq.
  pose proof (calculateActivityCorrelation_ratio _ _ _ _ Ha' Hb') as Hq'.
  assert (Heq : (activity_ratio a b == activity_ratio a' b')%Q).
  { rewrite (activity_ratio_compat a' b b' a Hab Hba). apply activity_ratio_comm. }
  exists (activity_ratio a b), (activity_ratio a' b').
  split; [exact Hq|]. split; [exact Hq'|]. split; [exact Heq|].
  rewrite !with_code_low_warnings.
  apply (low_correlation_warnings_nil_equiv _ _ _ _ _ _ _ Hq Hq' Heq).
Qed.

(** Activity 4 against 10, and 10 against 4. *)
Lemma correlation_symmetric_witness :
  exists q q' : Q,
    calculateActivityCorrelation (Samples.github_at 1000) (Samples.busy_near 1000) = Num q
    /\ calculateActivityCorrelation
         (mkGitHubMetrics (Samples.counter 10) [] (Samples.counter 10) []
            (Samples.counter 10) [] 1000)
         (Samples.near_at 1000) = Num q'
    /\ (q == q')%Q.
Proof.
  destruct (correlation_symmetric DEFAULT_THRESHOLDS
              (Samples.github_at 1000) (Samples.busy_near 1000)
              (mkGitHubMetrics (Samples.counter 10) [] (Samples.counter 10) []
                 (Samples.counter 10) [] 1000)
              (Samples.near_at 1000)
              (Samples.clock_from 2000) (Samples.clock_from 2000)
              (fdiv (fadd (fadd (inject_Z 9) (inject_Z 2)) (inject_Z 1)) 3)
              (fdiv (fadd (inject_Z 10) (inject_Z 10)) 2)
              (fdiv (fadd (fadd (inject_Z 10) (inject_Z 10)) (inject_Z 10)) 3)
              (fdiv (fadd (inject_Z 5) (inject_Z 3)) 2)
              eq_refl eq_refl eq_refl eq_refl
              ltac:(vm_compute; reflexivity) ltac:(vm_compute; reflexivity))
    as (q & q' & Hq & Hq' & Heq & _).
  exists q, q'. repeat split; assumption.
Defined.

(** An activity level is a binary64 value. *)
Lemma div_is_double x y q : div x y = Num q -> is_double q.
Proof.
  destruct x as [a|], y as [b|]; simpl; try discriminate.
  destruct (Qeq_bool b 0); [discriminate|].
  intros H. injection H as <-. apply round64_idem.
Qed.

Lemma githubActivity_is_double github a :
  githubActivity github = Num a -> is_double a.
Proof. unfold githubActivity. apply div_is_double. Qed.

Lemma nearActivity_is_double near b :
  nearActivity near = Num b -> is_double b.
Proof. unfold nearActivity. apply div_is_double. Qed.

Lemma activity_ratio_one_iff (a b : Q) :
  is_double a -> is_double b ->
  (0 <= a)%Q -> (0 <= b)%Q -> ((activity_ratio a b == 1)%Q <-> (a == b)%Q).
Proof.
  intros Da Db Ha Hb.
  destruct (activity_ratio_cases a b) as [[H0 ->] | [H0 ->]].
  - destruct (Qminmax_cases a b) as [(Hlt & Hmax & _) | (Hle & Hmax & _)];
      rewrite Hmax in H0; split; try reflexivity; intros _; lra.
  - split.
    + intros H1.
      destruct (Qminmax_cases a b) as [(Hlt & Hmax & Hmin) | (Hle & Hmax & Hmin)].
      * exfalso. rewrite (fdiv_compat _ _ _ _ Hmin Hmax) in H1.
        destruct (Qlt_le_dec 0 a) as [Hpos | Hzero].
        -- pose proof (round64_ratio_lt_1 a b Da Db Hpos Hlt) as Hlt1.
           unfold fdiv in H1. lra.
        -- assert (Ha0 : (a == 0)%Q) by lra.
           unfold fdiv in H1.
           rewrite (round64_zero_eq (a / b)) in H1; [discriminate H1|].
           rewrite Ha0. unfold Qdiv. apply Qmult_0_l.
      * destruct (Qlt_le_dec b a) as [Hlt | Hge]; [|lra].
        exfalso. rewrite (fdiv_compat _ _ _ _ Hmin Hmax) in H1.
        destruct (Qlt_le_dec 0 b) as [Hpos | Hzero].
        -- pose proof (round64_ratio_lt_1 b a Db Da Hpos Hlt) as Hlt1.
           unfold fdiv in H1. lra.
        -- assert (Hb0 : (b == 0)%Q) by lra.
           unfold fdiv in H1.
           rewrite (round64_zero_eq (b / a)) in H1; [discriminate H1|].
           rewrite Hb0. unfold Qdiv. apply Qmult_0_l.
    + intros Hab.
      assert (Hmm : (Qmin a b == Qmax a b)%Q).
      { destruct (Qminmax_cases a b) as [(Hlt & _ & _) | (_ & Hmax & Hmin)];
          [lra|]. rewrite Hmax, Hmin. symmetry. exact Hab. }
      unfold fdiv. rewrite <- round64_1. apply round64_compat.
      rewrite Hmm. field. exact H0.
Qed.

Lemma activity_ratio_zero_iff (a b : Q) :
  (0 <= a)%Q -> (0 <= b)%Q ->
  ((activity_ratio a b == 0)%Q <->
   ((a == 0)%Q /\ (0 < b)%Q) \/ ((b == 0)%Q /\ (0 < a)%Q)).
Proof.
  intros Ha Hb.
  destruct (Qminmax_cases a b) as [(Hlt & Hmax & Hmin) | (Hle & Hmax & Hmin)];
    destruct (activity_ratio_cases a b) as [[H0 ->] | [H0 ->]].
  - rewrite Hmax in H0. split; [intros H; lra | intros [[? ?] | [? ?]]; lra].
  - unfold fdiv. rewrite round64_eq_0, Hmax, Hmin. rewrite Hmax in H0. split.
    + intros H. assert (Hab : (a / b * b == 0 * b)%Q) by (rewrite H; reflexivity).
      rewrite Qmult_comm, Qmult_div_r in Hab by exact H0. left. split; lra.
    + intros [[H ?] | [? ?]]; [|lra]. rewrite H. field. exact H0.
  - rewrite Hmax in H0. split; [intros H; lra | intros [[? ?] | [? ?]]; lra].
  - unfold fdiv. rewrite round64_eq_0, Hmax, Hmin. rewrite Hmax in H0. split.
    + intros H. assert (Hab : (b / a * a == 0 * a)%Q) by (rewrite H; reflexivity).
      rewrite Qmult_comm, Qmult_div_r in Hab by exact H0.
      right. split; [lra|]. destruct (Qlt_le_dec 0 a) as [Hpos | Hneg]; [exact Hpos|].
      exfalso. apply H0. lra.
    + intros [[? ?] | [H ?]]; [lra|]. rewrite H. field. exact H0.
Qed.

(** X13. For activity levels that are not negative, the correlation is 1
    exactly when the two levels are equal (both idle included), and 0
    exactly when one source is idle while the other is active. *)
Theorem correlation_extremes :
  forall github near (a b : Q),
    githubActivity github = Num a ->
    nearActivity near = Num b ->
    (0 <= a)%Q -> (0 <= b)%Q ->
    exists q : Q,
      calculateActivityCorrelation github near = Num q
      /\ ((q == 1)%Q <-> (a == b)%Q)
      /\ ((q == 0)%Q <->
          ((a == 0)%Q /\ (0 < b)%Q) \/ ((b == 0)%Q /\ (0 < a)%Q)).
Proof.
  intros github near a b Ha Hb H0a H0b.
  exists (activity_ratio a b). split; [|split].
  - apply calculateActivityCorrelation_ratio; assumption.
  - apply activity_ratio_one_iff; try assumption.
    + apply (githubActivity_is_double github). exact Ha.
    + apply (nearActivity_is_double near). exact Hb.
  - apply activity_ratio_zero_iff; assumption.
Qed.

(** Idle code activity against a busy ledger. *)
Lemma correlation_extremes_witness :
  exists q : Q,
    calculateActivityCorrelation (Samples.idle_github 1000) (Samples.busy_near 1000)
    = Num q
    /\ (q == 0)%Q.
Proof.
  destruct (correlation_extremes
              (Samples.idle_github 1000) (Samples.busy_near 1000)
              (fdiv (fadd (fadd (inject_Z 0) (inject_Z 0)) (inject_Z 0)) 3)
              (fdiv (fadd (inject_Z 10) (inject_Z 10)) 2)
              eq_refl eq_refl
              ltac:(vm_compute; discriminate) ltac:(vm_compute; discriminate))
    as (q & Hq & _ & Hzero).
  exists q. split; [exact Hq|].
  apply Hzero. left. split; vm_compute; reflexivity.
Defined.

(** ** Scaling the counters *)

Lemma floor_log2_scale e x :
  (0 < x)%Q -> floor_log2 (pow2 e * x) = floor_log2 x + e.
Proof.
  intros Hx. apply floor_log2_unique.
  destruct (floor_log2_spec x Hx) as [H1 H2].
  pose proof (pow2_pos e) as He.
  replace (floor_log2 x + e + 1) with ((floor_log2 x + 1) + e) by lia.
  rewrite (pow2_add (floor_log2 x) e), (pow2_add (floor_log2 x + 1) e). split.
  - rewrite (Qmult_comm (pow2 e)). apply Qmult_le_compat_r; [exact H1 | lra].
  - rewrite (Qmult_comm (pow2 e)). apply Qmult_lt_compat_r; assumption.
Qed.

Lemma round_pos_scale e x :
  (0 < x)%Q -> (round_pos (pow2 e * x) == pow2 e * round_pos x)%Q.
Proof.
  intros Hx. unfold round_pos. rewrite (floor_log2_scale e x Hx).
  replace (floor_log2 x + e - 52) with ((floor_log2 x - 52) + e) by lia.
  set (k := floor_log2 x - 52).
  rewrite (rne_compat (pow2 e * x / pow2 (k + e)) (x / pow2 k)).
  - rewrite pow2_add. ring.
  - rewrite pow2_add. field. split; apply pow2_neq_0.
Qed.

(** Multiplying by a power of two commutes with rounding. *)
Lemma round64_scale e x : (round64 (pow2 e * x) == pow2 e * round64 x)%Q.
Proof.
  pose proof (pow2_pos e) as He.
  destruct (round64_cases x) as [[Hx ->] | [[Hx ->] | [Hx ->]]].
  - rewrite round64_pos_eq by (apply Qmult_lt_0_compat; assumption).
    apply round_pos_scale. exact Hx.
  - rewrite round64_zero_eq; [ring | rewrite Hx; ring].
  - assert (Hn : (0 < pow2 e * - x)%Q) by (apply Qmult_lt_0_compat; lra).
    rewrite round64_neg_eq by lra.
    rewrite (round_pos_compat (- (pow2 e * x)) (pow2 e * - x)) by (lra || ring).
    rewrite round_pos_scale by lra. ring.
Qed.

Lemma fadd_scale e a b : (fadd (pow2 e * a) (pow2 e * b) == pow2 e * fadd a b)%Q.
Proof.
  unfold fadd. rewrite <- round64_scale. apply round64_compat. ring.
Qed.

Lemma fdiv_scale e a d : (fdiv (pow2 e * a) d == pow2 e * fdiv a d)%Q.
Proof.
  unfold fdiv. rewrite <- round64_scale. apply round64_compat.
  unfold Qdiv. ring.
Qed.

Lemma fadd_compat (x x' y y' : Q) :
  (x == x')%Q -> (y == y')%Q -> (fadd x y == fadd x' y')%Q.
Proof.
  intros Hx Hy. unfold fadd. apply round64_compat. rewrite Hx, Hy. reflexivity.
Qed.

Lemma Qmax_scale (k a b : Q) : (0 < k)%Q -> (Qmax (k * a) (k * b) == k * Qmax a b)%Q.
Proof.
  intros Hk.
  destruct (Qminmax_cases a b) as [(H1 & -> & _) | (H1 & -> & _)];
    destruct (Qminmax_cases (k * a) (k * b)) as [(H2 & -> & _) | (H2 & -> & _)];
    try reflexivity.
  - apply Qle_antisym; [|exact H2].
    apply Qlt_le_weak, Qmult_lt_l; assumption.
  - apply Qmult_lt_l in H2; [|exact Hk]. exfalso. exact (Qlt_not_le _ _ H2 H1).
Qed.

Lemma Qmin_scale (k a b : Q) : (0 < k)%Q -> (Qmin (k * a) (k * b) == k * Qmin a b)%Q.
Proof.
  intros Hk.
  destruct (Qminmax_cases a b) as [(H1 & _ & ->) | (H1 & _ & ->)];
    destruct (Qminmax_cases (k * a) (k * b)) as [(H2 & _ & ->) | (H2 & _ & ->)];
    try reflexivity.
  - apply Qle_antisym; [exact H2|].
    apply Qlt_le_weak, Qmult_lt_l; assumption.
  - apply Qmult_lt_l in H2; [|exact Hk]. exfalso. exact (Qlt_not_le _ _ H2 H1).
Qed.

(** The quotient of two levels scaled by the same factor is the quotient of
    the levels: the exact quotients agree, and so do their roundings. *)
Lemma activity_ratio_scale (k a b : Q) :
  (0 < k)%Q -> (activity_ratio (k * a) (k * b) == activity_ratio a b)%Q.
Proof.
  intros Hk.
  assert (Hk0 : ~ (k == 0)%Q).
  { intros H. rewrite H in Hk. exact (Qlt_irrefl 0 Hk). }
  pose proof (Qmax_scale k a b Hk) as Hmax.
  pose proof (Qmin_scale k a b Hk) as Hmin.
  destruct (activity_ratio_cases a b) as [[H1 ->] | [H1 ->]];
    destruct (activity_ratio_cases (k * a) (k * b)) as [[H2 ->] | [H2 ->]].
  - reflexivity.
  - exfalso. apply H2. rewrite Hmax, H1. apply Qmult_0_r.
  - exfalso. rewrite Hmax in H2. apply Qmult_integral in H2 as [H2 | H2];
      [exact (Hk0 H2) | exact (H1 H2)].
  - unfold fdiv. apply round64_compat. rewrite Hmax, Hmin. field.
    split; assumption.
Qed.

Lemma of_Z_scaled e n :
  0 <= e -> (inject_Z (2 ^ e * n) == pow2 e * inject_Z n)%Q.
Proof.
  intros He. rewrite inject_Z_mult, (pow2_Z e He). reflexivity.
Qed.

(** X12. The correlation is unchanged when all five counters are multiplied
    by the same power of two, and so is the LOW_ACTIVITY_CORRELATION warning:
    such a factor commutes with every rounding on the way.  The counters are
    non-negative integers whose scaled values stay within 2^53.  Other
    factors can change the value (see [correlation_changes_when_tripled]). *)
Theorem correlation_scale_invariant :
  forall th github near github' near' readings readings' (e c m i t k : Z),
    0 <= e ->
    Forall (fun n => 0 <= n /\ 2 ^ e * n <= 2 ^ 53) [c; m; i; t; k] ->
    commits_count github = JNumber (of_Z c) ->
    pullRequests_merged github = JNumber (of_Z m) ->
    issues_closed github = JNumber (of_Z i) ->
    transactions_count near = JNumber (of_Z t) ->
    contract_calls near = JNumber (of_Z k) ->
    commits_count github' = JNumber (of_Z (2 ^ e * c)) ->
    pullRequests_merged github' = JNumber (of_Z (2 ^ e * m)) ->
    issues_closed github' = JNumber (of_Z (2 ^ e * i)) ->
    transactions_count near' = JNumber (of_Z (2 ^ e * t)) ->
    contract_calls near' = JNumber (of_Z (2 ^ e * k)) ->
    exists q q' : Q,
      calculateActivityCorrelation github near = Num q
      /\ calculateActivityCorrelation github' near' = Num q'
      /\ (q == q')%Q
      /\ (with_code "LOW_ACTIVITY_CORRELATION"
            (warnings (run_validate th github near readings)) = [] <->
          with_code "LOW_ACTIVITY_CORRELATION"
            (warnings (run_validate th github' near' readings')) = []).
Proof.
  intros th github near github' near' readings readings' e c m i t k
    He _ Hc Hm Hi Ht Hk Hc' Hm' Hi' Ht' Hk'.
  pose proof (calculateActivityCorrelation_ratio _ _ _ _
                (githubActivity_Num _ _ _ _ Hc Hm Hi)
                (nearActivity_Num _ _ _ Ht Hk)) as Hq.
  pose proof (calculateActivityCorrelation_ratio _ _ _ _
                (githubActivity_Num _ _ _ _ Hc' Hm' Hi')
                (nearActivity_Num _ _ _ Ht' Hk')) as Hq'.
  set (A := fdiv (fadd (fadd (inject_Z c) (inject_Z m)) (inject_Z i)) 3) in *.
  set (B := fdiv (fadd (inject_Z t) (inject_Z k)) 2) in *.
  set (A' := fdiv (fadd (fadd (inject_Z (2 ^ e * c)) (inject_Z (2 ^ e * m)))
                        (inject_Z (2 ^ e * i))) 3) in *.
  set (B' := fdiv (fadd (inject_Z (2 ^ e * t)) (inject_Z (2 ^ e * k))) 2) in *.
  assert (HA : (A' == pow2 e * A)%Q).
  { unfold A', A. rewrite <- fdiv_scale. apply fdiv_compat; [|reflexivity].
    rewrite <- fadd_scale. apply fadd_compat; [|apply of_Z_scaled; exact He].
    rewrite <- fadd_scale. apply fadd_compat; apply of_Z_scaled; exact He. }
  assert (HB : (B' == pow2 e * B)%Q).
  { unfold B', B. rewrite <- fdiv_scale. apply fdiv_compat; [|reflexivity].
    rewrite <- fadd_scale. apply fadd_compat; apply of_Z_scaled; exact He. }
  assert (Heq : (activity_ratio A B == activity_ratio A' B')%Q).
  { rewrite <- (activity_ratio_scale (pow2 e) A B (pow2_pos e)).
    apply activity_ratio_compat; symmetry; assumption. }
  eexists _, _. split; [exact Hq|]. split; [exact Hq'|]. split; [exact Heq|].
  rewrite !with_code_low_warnings.
  apply (low_correlation_warnings_nil_equiv _ _ _ _ _ _ _ Hq Hq' Heq).
Qed.

(** Five commits against three transactions, and eight times as many. *)
Lemma correlation_scale_invariant_witness :
  exists q q' : Q,
    calculateActivityCorrelation
      (mkGitHubMetrics (Samples.counter 5) [] (Samples.counter 0) []
         (Samples.counter 0) [] 1000)
      (mkNEARMetrics (Samples.counter 3) [] (Samples.counter 0) [] 1000) = Num q
    /\ calculateActivityCorrelation
         (mkGitHubMetrics (Samples.counter 40) [] (Samples.counter 0) []
            (Samples.counter 0) [] 1000)
         (mkNEARMetrics (Samples.counter 24) [] (Samples.counter 0) [] 1000) = Num q'
    /\ (q == q')%Q.
Proof.
  destruct (correlation_scale_invariant DEFAULT_THRESHOLDS
              (mkGitHubMetrics (Samples.counter 5) [] (Samples.counter 0) []
                 (Samples.counter 0) [] 1000)
              (mkNEARMetrics (Samples.counter 3) [] (Samples.counter 0) [] 1000)
              (mkGitHubMetrics (Samples.counter 40) [] (Samples.counter 0) []
                 (Samples.counter 0) [] 1000)
              (mkNEARMetrics (Samples.counter 24) [] (Samples.counter 0) [] 1000)
              (Samples.clock_from 2000) (Samples.clock_from 2000)
              3 5 0 0 3 0
              ltac:(lia)
              ltac:(repeat constructor; try lia; vm_compute; discriminate)
              eq_refl eq_refl eq_refl eq_refl eq_refl
              eq_refl eq_refl eq_refl eq_refl eq_refl)
    as (q & q' & Hq & Hq' & Heq & _).
  exists q, q'. repeat split; assumption.
Defined.

(** A factor that is not a power of two: five commits against three
    transactions give the binary64 value just below 0.9, fifteen against
    nine give 0.9 itself, and with a threshold of 0.9 the warning of the
    first pair is not given for the second. *)
Example correlation_changes_when_tripled :
  lt (calculateActivityCorrelation
        (mkGitHubMetrics (Samples.counter 5) [] (Samples.counter 0) []
           (Samples.counter 0) [] 1000)
        (mkNEARMetrics (Samples.counter 3) [] (Samples.counter 0) [] 1000))
     (calculateActivityCorrelation
        (mkGitHubMetrics (Samples.counter 15) [] (Samples.counter 0) []
           (Samples.counter 0) [] 1000)
        (mkNEARMetrics (Samples.counter 9) [] (Samples.counter 0) [] 1000)) = true
  /\ strict_eq
       (calculateActivityCorrelation
          (mkGitHubMetrics (Samples.counter 15) [] (Samples.counter 0) []
             (Samples.counter 0) [] 1000)
          (mkNEARMetrics (Samples.counter 9) [] (Samples.counter 0) [] 1000))
       (literal (9 # 10)) = true
  /\ with_code "LOW_ACTIVITY_CORRELATION"
       (warnings (run_validate
                    (CrossValidator_new
                       (mkPartial None (Some (JNumber (literal (9 # 10)))) None None))
                    (mkGitHubMetrics (Samples.counter 5) [] (Samples.counter 0) []
                       (Samples.counter 0) [] 1000)
                    (mkNEARMetrics (Samples.counter 3) [] (Samples.counter 0) [] 1000)
                    (Samples.clock_from 2000)))
     <> []
  /\ with_code "LOW_ACTIVITY_CORRELATION"
       (warnings (run_validate
                    (CrossValidator_new
                       (mkPartial None (Some (JNumber (literal (9 # 10)))) None None))
                    (mkGitHubMetrics (Samples.counter 15) [] (Samples.counter 0) []
                       (Samples.counter 0) [] 1000)
                    (mkNEARMetrics (Samples.counter 9) [] (Samples.counter 0) [] 1000)
                    (Samples.clock_from 2000)))
     = [].
Proof.
  split; [vm_compute; reflexivity|]. split; [vm_compute; reflexivity|].
  split; [vm_compute; discriminate | vm_compute; reflexivity].
Qed.
(** ** Counters that are not numbers *)

Lemma add_NaN_l x : add NaN x = NaN.
Proof. reflexivity. Qed.

Lemma add_NaN_r x : add x NaN = NaN.
Proof. destruct x; reflexivity. Qed.

Lemma max_NaN_r x : max x NaN = NaN.
Proof. destruct x; reflexivity. Qed.

Lemma calculateActivityCorrelation_NaN github near :
  githubActivity github = NaN \/ nearActivity near = NaN ->
  calculateActivityCorrelation github near = NaN.
Proof.
  unfold calculateActivityCorrelation. intros [-> | ->].
  - reflexivity.
  - rewrite max_NaN_r. cbn [strict_eq]. destruct (min _ _); reflexivity.
Qed.

(** X14. One counter that is missing or [NaN] silences the correlation
    check: whichever of the five counters it is and whatever the other four
    and the threshold are, the correlation is [NaN] and [validate] emits no
    LOW_ACTIVITY_CORRELATION warning. *)
Theorem unreadable_counter_silences_correlation :
  forall th github near readings,
    ToNumber (commits_count github) = NaN
    \/ ToNumber (pullRequests_merged github) = NaN
    \/ ToNumber (issues_closed github) = NaN
    \/ ToNumber (transactions_count near) = NaN
    \/ ToNumber (contract_calls near) = NaN ->
    calculateActivityCorrelation github near = NaN
    /\ with_code "LOW_ACTIVITY_CORRELATION"
         (warnings (run_validate th github near readings)) = [].
Proof.
  intros th github near readings H.
  assert (HC : calculateActivityCorrelation github near = NaN).
  { apply calculateActivityCorrelation_NaN.
    unfold githubActivity, nearActivity, js_add.
    destruct H as [-> | [-> | [-> | [-> | ->]]]].
    - left. reflexivity.
    - left. rewrite add_NaN_r. reflexivity.
    - left. rewrite add_NaN_r. reflexivity.
    - right. reflexivity.
    - right. rewrite add_NaN_r. reflexivity. }
  split; [exact HC|].
  rewrite with_code_low_warnings. apply low_correlation_warnings_nil.
  rewrite HC. reflexivity.
Qed.

(** A ledger record without its [calls] counter, under a threshold that
    every number is below. *)
Lemma unreadable_counter_silences_correlation_witness :
  with_code "LOW_ACTIVITY_CORRELATION"
    (warnings (run_validate (Samples.with_minActivityCorrelation 2)
                 (Samples.github_at 1000)
                 (mkNEARMetrics (Samples.counter 5) [] JUndefined [] 1000)
                 (Samples.clock_from 2000))) = [].
Proof.
  refine (proj2 (unreadable_counter_silences_correlation
                   (Samples.with_minActivityCorrelation 2)
                   (Samples.github_at 1000)
                   (mkNEARMetrics (Samples.counter 5) [] JUndefined [] 1000)
                   (Samples.clock_from 2000) _)).
  right. right. right. right. reflexivity.
Defined.

(** ** Counting users *)

Lemma size_list_to_set_remove_dups (l : list string) :
  size (list_to_set l : gset string) = length (remove_dups l).
Proof.
  rewrite <- (size_list_to_set (C := gset string) (remove_dups l))
    by apply NoDup_remove_dups.
  f_equal. apply set_eq. intros x.
  rewrite !elem_of_list_to_set, elem_of_remove_dups. reflexivity.
Qed.

Lemma size_list_to_set_le (l : list string) :
  (size (list_to_set l : gset string) <= length l)%nat.
Proof.
  rewrite size_list_to_set_remove_dups.
  induction l as [|x l IH]; [reflexivity|].
  cbn [remove_dups length]. destruct (decide_rel elem_of x l); cbn [length]; lia.
Qed.

(** X15. A user is counted once however often and in however many lists
    the identifier appears: the size of each user set is the number of
    distinct identifiers in the concatenated lists, it is at most the total
    length of the lists and at least the number of distinct identifiers of
    any one list. *)
Theorem users_counted_once :
  forall github near,
    size (githubUsers github) =
    length (remove_dups (commits_authors github ++ pullRequests_authors github
                         ++ issues_participants github))
    /\ size (nearUsers near) =
       length (remove_dups (transactions_uniqueUsers near
                            ++ contract_uniqueCallers near))
    /\ (size (githubUsers github)
        <= length (commits_authors github) + length (pullRequests_authors github)
           + length (issues_participants github))%nat
    /\ (size (nearUsers near)
        <= length (transactions_uniqueUsers near)
           + length (contract_uniqueCallers near))%nat
    /\ (length (remove_dups (commits_authors github)) <= size (githubUsers github))%nat
    /\ (length (remove_dups (pullRequests_authors github))
        <= size (githubUsers github))%nat
    /\ (length (remove_dups (issues_participants github))
        <= size (githubUsers github))%nat
    /\ (length (remove_dups (transactions_uniqueUsers near))
        <= size (nearUsers near))%nat
    /\ (length (remove_dups (contract_uniqueCallers near))
        <= size (nearUsers near))%nat.
Proof.
  intros github near. unfold githubUsers, nearUsers.
  repeat split.
  - apply size_list_to_set_remove_dups.
  - apply size_list_to_set_remove_dups.
  - etransitivity; [apply size_list_to_set_le|]. rewrite !length_app. lia.
  - etransitivity; [apply size_list_to_set_le|]. rewrite !length_app. lia.
  - rewrite <- size_list_to_set_remove_dups. apply subseteq_size.
    rewrite !list_to_set_app_L. set_solver.
  - rewrite <- size_list_to_set_remove_dups. apply subseteq_size.
    rewrite !list_to_set_app_L. set_solver.
  - rewrite <- size_list_to_set_remove_dups. apply subseteq_size.
    rewrite !list_to_set_app_L. set_solver.
  - rewrite <- size_list_to_set_remove_dups. apply subseteq_size.
    rewrite !list_to_set_app_L. set_solver.
  - rewrite <- size_list_to_set_remove_dups. apply subseteq_size.
    rewrite !list_to_set_app_L. set_solver.
Qed.

(** ** Edge cases of the user engagement check *)

Lemma userDiff_le_max github near :
  0 <= userDiff github near
       <= Z.max (set_size (githubUsers github)) (set_size (nearUsers near)).
Proof.
  unfold userDiff.
  pose proof (set_size_nonneg (githubUsers github)).
  pose proof (set_size_nonneg (nearUsers near)). lia.
Qed.

(** X16. The user engagement check at the ends of its range, for a
    [maxUserDiffRatio] that holds a number.  With a ratio of at least 1 it
    never warns (user counts within 2^53).  With a ratio that is not
    negative it does not warn when the two user counts are equal.  With a
    binary64 ratio below 1 it always warns when one source has users and the
    other has none. *)
Theorem user_engagement_edge_cases :
  forall th github near readings (ratio : Q),
    maxUserDiffRatio th = JNumber (Num ratio) ->
    let found :=
      with_code "USER_COUNT_DISCREPANCY"
        (warnings (run_validate th github near readings)) in
    ((1 <= ratio)%Q ->
     set_size (githubUsers github) <= 2 ^ 53 ->
     set_size (nearUsers near) <= 2 ^ 53 ->
     found = [])
    /\ ((0 <= ratio)%Q ->
        size (githubUsers github) = size (nearUsers near) -> found = [])
    /\ ((ratio < 1)%Q -> is_double ratio ->
        (size (githubUsers github) = 0%nat /\ (0 < size (nearUsers near))%nat)
        \/ (size (nearUsers near) = 0%nat /\ (0 < size (githubUsers github))%nat) ->
        found <> []).
Proof.
  intros th github near readings ratio Hth found. unfold found.
  rewrite with_code_user_warnings.
  pose proof (userDiff_le_max github near) as [Hd0 HdM].
  pose proof (max_size_nonneg github near) as HM0.
  split; [|split].
  - intros Hr HA HB. apply (user_count_warnings_nil_finite _ _ _ _ Hth).
    set (M := Z.max (set_size (githubUsers github)) (set_size (nearUsers near))) in *.
    assert (HMd : is_double (inject_Z M)).
    { apply is_double_Z.
      pose proof (set_size_nonneg (githubUsers github)). unfold M. lia. }
    apply Qle_trans with (inject_Z M); [rewrite <- Zle_Qle; exact HdM|].
    unfold is_double in HMd.
    apply Qle_trans with (round64 (inject_Z M));
      [apply Qle_lteq; right; symmetry; exact HMd|].
    unfold fmul. apply round64_mono.
    rewrite <- (Qmult_1_r (inject_Z M)) at 1.
    rewrite !(Qmult_comm (inject_Z M)). apply Qmult_le_compat_r; assumption.
  - intros Hr Heq. apply (user_count_warnings_nil_finite _ _ _ _ Hth).
    unfold userDiff, set_size. rewrite Heq, Z.sub_diag. simpl Z.abs.
    unfold fmul. apply round64_nonneg.
    apply Qmult_le_0_compat; [|exact Hr].
    change 0%Q with (inject_Z 0). rewrite <- Zle_Qle. lia.
  - intros Hr Dr Hone. apply user_count_warnings_gt.
    rewrite (maxDiff_finite _ _ _ _ Hth). unfold of_Z. apply gt_Num.
    assert (Heq : userDiff github near =
                  Z.max (set_size (githubUsers github)) (set_size (nearUsers near))
                  /\ 0 < userDiff github near).
    { unfold userDiff, set_size. destruct Hone as [[-> H] | [-> H]]; lia. }
    destruct Heq as [Heq Hpos]. rewrite <- Heq.
    unfold fmul. apply round64_scaled_below; [|exact Dr | exact Hr].
    change 0%Q with (inject_Z 0). rewrite <- Zlt_Qlt. exact Hpos.
Qed.

(** Three code users against an idle ledger without users, default ratio. *)
Lemma user_engagement_edge_cases_witness :
  with_code "USER_COUNT_DISCREPANCY"
    (warnings (run_validate DEFAULT_THRESHOLDS
                 (Samples.github_at 1000) (Samples.idle_near 1000)
                 (Samples.clock_from 2000))) <> [].
Proof.
  refine (proj2 (proj2
            (user_engagement_edge_cases DEFAULT_THRESHOLDS
               (Samples.github_at 1000) (Samples.idle_near 1000)
               (Samples.clock_from 2000) (round64 (1 # 2)) eq_refl)) _ _ _).
  - vm_compute. reflexivity.
  - vm_compute. reflexivity.
  - right. split; vm_compute; [reflexivity | lia].
Defined.

(** X17. The USER_COUNT_DISCREPANCY warning carries the evidence of its own
    decision: when it is emitted there is one, the ratio holds a number, the
    context gives the two user counts, their absolute difference and the
    allowed difference [max * maxUserDiffRatio] as the language computes it,
    rounded to binary64, and the reported difference is greater than the
    reported threshold. *)
Theorem user_count_warning_context :
  forall th github near readings,
    let found :=
      with_code "USER_COUNT_DISCREPANCY"
        (warnings (run_validate th github near readings)) in
    let countA := Z.of_nat (size (githubUsers github)) in
    let countB := Z.of_nat (size (nearUsers near)) in
    found <> [] ->
    exists w ratio,
      found = [w]
      /\ maxUserDiffRatio th = JNumber (Num ratio)
      /\ code w = "USER_COUNT_DISCREPANCY"%string
      /\ context_get "githubUsers" (context w) = Some (of_Z countA)
      /\ context_get "nearUsers" (context w) = Some (of_Z countB)
      /\ context_get "difference" (context w) = Some (of_Z (Z.abs (countA - countB)))
      /\ context_get "threshold" (context w)
         = Some (mul (of_Z (Z.max countA countB)) (ToNumber (maxUserDiffRatio th)))
      /\ context_get "threshold" (context w)
         = Some (Num (fmul (inject_Z (Z.max countA countB)) ratio))
      /\ (fmul (inject_Z (Z.max countA countB)) ratio
          < inject_Z (Z.abs (countA - countB)))%Q.
Proof.
  intros th github near readings found countA countB. unfold found.
  rewrite with_code_user_warnings. intros Hne.
  pose proof (proj1 (user_count_warnings_gt th github near) Hne) as Hgt.
  destruct (maxUserDiffRatio th) as [|[ratio|]] eqn:Hth.
  - exfalso. unfold maxDiff in Hgt. rewrite Hth in Hgt. discriminate Hgt.
  - revert Hne. unfold user_count_warnings, validateUserEngagement, push.
    rewrite Hgt. intros _.
    eexists. exists ratio. split; [reflexivity|]. split; [reflexivity|].
    rewrite (maxDiff_finite _ _ _ _ Hth) in *.
    repeat split.
    apply gt_Num in Hgt. exact Hgt.
  - exfalso. unfold maxDiff in Hgt. rewrite Hth in Hgt. discriminate Hgt.
Qed.

(** The warning of three users against one. *)
Lemma user_count_warning_context_witness :
  exists w,
    with_code "USER_COUNT_DISCREPANCY"
      (warnings (run_validate DEFAULT_THRESHOLDS
                   (Samples.github_at 1000) (Samples.busy_near 1000)
                   (Samples.clock_from 2000))) = [w]
    /\ context_get "difference" (context w) = Some (of_Z 2).
Proof.
  destruct (user_count_warning_context DEFAULT_THRESHOLDS
              (Samples.github_at 1000) (Samples.busy_near 1000)
              (Samples.clock_from 2000))
    as (w & ratio & Hw & _ & _ & _ & _ & Hd & _).
  - vm_compute. discriminate.
  - exists w. split; [exact Hw | exact Hd].
Defined.

(** ** Thresholds given to the constructor *)




(** The drift limit given as [undefined]: the constructor keeps it and no
    distance between the timestamps is reported. *)
Example undefined_drift_limit_switches_check_off :
  maxTimeDrift (CrossValidator_new (mkPartial (Some JUndefined) None None None))
  = JUndefined
  /\ with_code "TIMESTAMP_DRIFT"
       (errors (run_validate
                  (CrossValidator_new (mkPartial (Some JUndefined) None None None))
                  (Samples.github_at 0) (Samples.near_at (7 * Samples.hour))
                  (Samples.clock_from (8 * Samples.hour)))) = [].
Proof. split; vm_compute; reflexivity. Qed.

(** ** Thresholds outside their range *)



